(** * python-kong: the admin client of [kong/client.py]

    A shallow embedding of the client runtime shared by every resource
    client: URL building, the throttling adapter, the response
    classification, the bounded retry of [delete], and the resource clients
    themselves.

    - Python objects that travel through the client (keyword arguments,
      decoded JSON bodies) are values of the inductive type [value].
    - A [dict] is an association list: [items()] order and the order of the
      query string matter.
    - A method that talks to the backend is a computation in the monad [M]:
      it threads a [World] (the responses the backend is going to give, the
      requests sent so far, the number of back-off pauses) and either
      returns or raises an [exn].
    - Time stamps of the throttling adapter are rationals.  *)

From Stdlib Require Import String Ascii List ZArith QArith Bool Lia Lqa.
From Stdlib Require Import DecimalString.
Import ListNotations.
Close Scope Q_scope.
Open Scope string_scope.

Set Implicit Arguments.

(* ------------------------------------------------------------------ *)
(** ** Python values *)

#[warnings="-register-all"]
Inductive value : Type :=
| PyNone
| PyBool (b : bool)
| PyInt (n : Z)
| PyStr (s : string)
| PyList (l : list value)
| PyDict (d : list (string * value)).

Definition dict : Type := list (string * value).

(** [bool(v)]: the truth value Python gives to [v] in [if v:] and [v or w]. *)
Definition truthy (v : value) : bool :=
  match v with
  | PyNone => false
  | PyBool b => b
  | PyInt n => negb (n =? 0)%Z
  | PyStr s => negb (s =? "")
  | PyList l => match l with [] => false | _ :: _ => true end
  | PyDict d => match d with [] => false | _ :: _ => true end
  end.

(** [v is not None] *)
Definition is_not_None (v : value) : bool :=
  match v with PyNone => false | _ => true end.

(** [isinstance(v, bool)] *)
Definition isinstance_bool (v : value) : bool :=
  match v with PyBool _ => true | _ => false end.

(** [a or b] *)
Definition py_or (a b : value) : value := if truthy a then a else b.

(** Decimal rendering of an integer, as [str(n)] gives it. *)
Definition decimal (n : Z) : string := NilZero.string_of_int (Z.to_int n).

(** What the interpreter and the standard library provide and the client
    only calls: reference resolution inside [urljoin], the percent-encoding
    of a query component, and [repr] of a container (which differs between
    Python 2 and 3).  The two module-level settings read from the
    environment when [kong.client] is imported are part of it as well. *)
Class Runtime : Type := {
  url_resolve : string -> string -> string;
  quote_plus : string -> string;
  repr_container : value -> string;
  KONG_MINIMUM_REQUEST_INTERVAL : Q;
  KONG_REUSE_CONNECTIONS : bool
}.

(** ['%s' % v] *)
Definition py_str `{Runtime} (v : value) : string :=
  match v with
  | PyNone => "None"
  | PyBool true => "True"
  | PyBool false => "False"
  | PyInt n => decimal n
  | PyStr s => s
  | PyList _ | PyDict _ => repr_container v
  end.

(** *** Dictionaries *)

Fixpoint dict_get (k : string) (d : dict) : option value :=
  match d with
  | [] => None
  | (k', v) :: rest => if k =? k' then Some v else dict_get k rest
  end.

(** [d[k] = v]: an existing key keeps its position, a new one goes last. *)
Fixpoint dict_set (k : string) (v : value) (d : dict) : dict :=
  match d with
  | [] => [(k, v)]
  | (k', v') :: rest =>
      if k =? k' then (k, v) :: rest else (k', v') :: dict_set k v rest
  end.

(** [d.update(e)], also [dict(d, **e)] *)
Definition dict_update (d e : dict) : dict :=
  fold_left (fun acc kv => dict_set (fst kv) (snd kv) acc) e d.

Definition keys (d : dict) : list string := map fst d.

Definition mem (k : string) (l : list string) : bool :=
  existsb (String.eqb k) l.

(* ------------------------------------------------------------------ *)
(** ** Exceptions and outcomes *)

Inductive exn : Type :=
| ValueError (msg : string)
| JSONDecodeError                 (* a ValueError, raised by response.json() *)
| ConflictError (msg : string)
| ValidationError (msg : string)
| TypeError (msg : string)
| AttributeError (msg : string)
| ConnectionError.                (* the transport gave no response *)

(** Modelled from the spec: the class hierarchy of [kong.exceptions], which
    is missing.  The spec lists [ConflictError] apart from the generic
    failure and excludes conflicts from the retry, so [ConflictError] is not
    a [ValueError]; [JSONDecodeError] is one in the standard library. *)
Definition isinstance_ValueError (e : exn) : bool :=
  match e with
  | ValueError _ | JSONDecodeError => true
  | _ => false
  end.

Inductive outcome (A : Type) : Type :=
| Return (a : A)
| Raise (e : exn).

Arguments Return {A} a.
Arguments Raise {A} e.

(** [len(v)]; a string is taken as the sequence of its characters. *)
Definition py_len (v : value) : outcome nat :=
  match v with
  | PyStr s => Return (String.length s)
  | PyList l => Return (List.length l)
  | PyDict d => Return (List.length d)
  | PyNone => Raise (TypeError "object of type 'NoneType' has no len()")
  | PyBool _ => Raise (TypeError "object of type 'bool' has no len()")
  | PyInt _ => Raise (TypeError "object of type 'int' has no len()")
  end.

(** [v.get(k)] and [v.get(k, default)] on a decoded body: only a dict has
    the method. *)
Definition py_get (v : value) (k : string) (default : value) : outcome value :=
  match v with
  | PyDict d => Return (match dict_get k d with Some x => x | None => default end)
  | _ => Raise (AttributeError "get")
  end.

(** [v.items()] *)
Definition py_items (v : value) : outcome dict :=
  match v with
  | PyDict d => Return d
  | _ => Raise (AttributeError "items")
  end.

(* ------------------------------------------------------------------ *)
(** ** HTTP messages and the world *)

Inductive verb : Type := GET | POST | PUT | PATCH | DELETE.

Record Request : Type := {
  method : verb;
  url : string;
  data : option dict;
  headers : dict
}.

Inductive Body : Type :=
| JsonBody (v : value)      (* the text decodes to [v] *)
| RawBody (text : string).  (* the text is not JSON *)

Record Response : Type := {
  status_code : Z;
  body : Body
}.

(** [response.json()] *)
Definition json (response : Response) : outcome value :=
  match body response with
  | JsonBody v => Return v
  | RawBody _ => Raise JSONDecodeError
  end.

(** [str(response)]: [requests] prints a response as [<Response [status]>]. *)
Definition str_response (response : Response) : string :=
  "<Response [" ++ decimal (status_code response) ++ "]>".

(** The backend as the client sees it: [inbox] holds the responses it will
    give, in order; [outbox] the requests sent, newest first; [backoffs]
    counts the pauses taken by the retry decorator. *)
Record World : Type := {
  inbox : list Response;
  outbox : list Request;
  backoffs : nat
}.

Definition M (A : Type) : Type := World -> outcome A * World.

Definition ret {A} (a : A) : M A := fun w => (Return a, w).

Definition raise {A} (e : exn) : M A := fun w => (Raise e, w).

Definition bind {A B} (m : M A) (k : A -> M B) : M B :=
  fun w =>
    match m w with
    | (Return a, w') => k a w'
    | (Raise e, w') => (Raise e, w')
    end.

Definition lift {A} (o : outcome A) : M A := fun w => (o, w).

Notation "x <- m ;; k" := (bind m (fun x => k))
  (at level 61, m at next level, right associativity).
Notation "m ;;; k" := (bind m (fun _ => k))
  (at level 61, right associativity).

(** One round trip on the session: the request is recorded and the next
    response of the backend comes back; with none left the transport
    raises. *)
Definition session_request (r : Request) : M Response :=
  fun w =>
    match inbox w with
    | [] => (Raise ConnectionError,
             {| inbox := []; outbox := r :: outbox w; backoffs := backoffs w |})
    | response :: rest =>
        (Return response,
         {| inbox := rest; outbox := r :: outbox w; backoffs := backoffs w |})
    end.

Definition session_get (u : string) (h : dict) : M Response :=
  session_request {| method := GET; url := u; data := None; headers := h |}.

Definition session_post (u : string) (d h : dict) : M Response :=
  session_request {| method := POST; url := u; data := Some d; headers := h |}.

Definition session_put (u : string) (d h : dict) : M Response :=
  session_request {| method := PUT; url := u; data := Some d; headers := h |}.

Definition session_patch (u : string) (d h : dict) : M Response :=
  session_request {| method := PATCH; url := u; data := Some d; headers := h |}.

Definition session_delete (u : string) (h : dict) : M Response :=
  session_request {| method := DELETE; url := u; data := None; headers := h |}.

(* ------------------------------------------------------------------ *)
(** ** [kong.compat] and [kong.utils] *)

(** Modelled from the spec: the status constants imported from
    [kong.compat], which is missing; the values are those of the spec's
    status code contract. *)
Definition OK : Z := 200.
Definition CREATED : Z := 201.
Definition NO_CONTENT : Z := 204.
Definition NOT_FOUND : Z := 404.
Definition CONFLICT : Z := 409.

(** [urljoin(base, url)] of the standard library, re-exported by
    [kong.compat]: an empty argument gives the other one back, anything else
    is reference resolution. *)
Definition urljoin `{Runtime} (base u : string) : string :=
  if base =? "" then u
  else if u =? "" then base
  else url_resolve base u.

Definition is_slash (c : ascii) : bool := Ascii.eqb c "/".

Fixpoint rstrip_slash (s : string) : string :=
  match s with
  | EmptyString => EmptyString
  | String c rest =>
      match rstrip_slash rest with
      | EmptyString => if is_slash c then EmptyString else String c EmptyString
      | kept => String c kept
      end
  end.

Fixpoint ends_with_slash (s : string) : bool :=
  match s with
  | EmptyString => false
  | String c EmptyString => is_slash c
  | String _ rest => ends_with_slash rest
  end.

(** Modelled from the spec: [ensure_trailing_slash] of [kong.utils], which
    is missing.  The spec: the builder produces a URL whose path always ends
    in a single trailing slash, and re-joining an already-slashed URL may not
    duplicate slashes. *)
Definition ensure_trailing_slash (u : string) : string :=
  rstrip_slash u ++ "/".

Definition query_pair `{Runtime} (kv : string * value) : string :=
  quote_plus (fst kv) ++ "=" ++ quote_plus (py_str (snd kv)).

(** Modelled from the spec: [add_url_params] of [kong.utils], which is
    missing.  The spec: query parameters are appended, entries whose value
    is [None] are omitted, all others are URL-encoded, and the trailing
    slash is not disturbed. *)
Definition query_string `{Runtime} (params : dict) : string :=
  match filter (fun kv => is_not_None (snd kv)) params with
  | [] => ""
  | kept => "?" ++ String.concat "&" (map query_pair kept)
  end.

Definition add_url_params `{Runtime} (u : string) (params : dict) : string :=
  u ++ query_string params.

(** Modelled from the spec: [assert_dict_keys_in] of [kong.utils], which is
    missing.  The spec: a key outside the whitelist fails fast with a
    validation error, never silently dropped. *)
Definition assert_dict_keys_in (d : dict) (allowed : list string) : outcome unit :=
  match find (fun k => negb (mem k allowed)) (keys d) with
  | Some k => Raise (ValidationError k)
  | None => Return tt
  end.

(* ------------------------------------------------------------------ *)
(** ** Module-level functions of [kong.client] *)

Definition get_default_kong_headers `{Runtime} : dict :=
  let headers := [] in
  if negb KONG_REUSE_CONNECTIONS
  then dict_update headers [("Connection", PyStr "close")]
  else headers.

(** The [(key, value)] pairs of the body as ['%s: %s' % (key, value)],
    joined with [', ']. *)
Definition flatten `{Runtime} (items : dict) : string :=
  String.concat ", " (map (fun kv => fst kv ++ ": " ++ py_str (snd kv)) items).

(** [raise_response_error] never returns: the result is the exception that
    leaves it.  [exception_class] is the constructor of the class, [None]
    when the argument is left out; every constructor of [exn] is an
    exception class, so the [assert issubclass(...)] holds. *)
Definition raise_response_error `{Runtime} (response : Response)
    (exception_class : option (string -> exn)) (is_json : bool) : exn :=
  let exception_class :=
    match exception_class with Some c => c | None => ValueError end in
  if is_json then
    match json response with
    | Raise e => e
    | Return payload =>
        match py_items payload with
        | Raise e => e
        | Return items => exception_class (flatten items)
        end
    end
  else exception_class (str_response response).

(** [@backoff.on_exception(backoff.expo, ValueError, max_tries=3)]: the
    target is called again after a pause while it raises a [ValueError] and
    tries remain; any other exception, and the [ValueError] of the last try,
    leave the wrapper.  [further] is the number of tries that may still
    follow the next one. *)
Definition pause : M unit :=
  fun w => (Return tt,
            {| inbox := inbox w; outbox := outbox w; backoffs := S (backoffs w) |}).

Fixpoint retry {A} (further : nat) (target : M A) : M A :=
  fun w =>
    match target w with
    | (Return a, w') => (Return a, w')
    | (Raise e, w') =>
        if isinstance_ValueError e then
          match further with
          | O => (Raise e, w')
          | S k => (pause ;;; retry k target) w'
          end
        else (Raise e, w')
    end.

Definition on_exception {A} (max_tries : nat) (target : M A) : M A :=
  retry (Nat.pred max_tries) target.

(* ------------------------------------------------------------------ *)
(** ** RestClient *)

Section RestClient.
Context `{Runtime}.
Variable api_url : string.

(** [self.headers] is [get_default_kong_headers()] in every client. *)
Definition get_headers (extra : dict) : dict :=
  let result := [] in
  let result := dict_update result get_default_kong_headers in
  dict_update result extra.

Definition get_url (path : list string) (query_params : dict) : string :=
  let u := ensure_trailing_slash (urljoin api_url (String.concat "/" path)) in
  add_url_params u query_params.

(** The lines after the request in every [create]/[add]. *)
Definition expect_created (response : Response) : M value :=
  result <- lift (json response) ;;
  if (status_code response =? CONFLICT)%Z then
    raise (raise_response_error response (Some ConflictError) true)
  else if negb (status_code response =? CREATED)%Z then
    raise (raise_response_error response (Some ValueError) true)
  else ret result.

(** The lines after the request in every [create_or_update]. *)
Definition expect_created_or_ok (response : Response) : M value :=
  result <- lift (json response) ;;
  if (status_code response =? CONFLICT)%Z then
    raise (raise_response_error response (Some ConflictError) true)
  else if negb ((status_code response =? CREATED)%Z
                || (status_code response =? OK)%Z) then
    raise (raise_response_error response (Some ValueError) true)
  else ret result.

(** The lines after the request in every [update], [list], [retrieve]. *)
Definition expect_ok (response : Response) : M value :=
  result <- lift (json response) ;;
  if negb (status_code response =? OK)%Z then
    raise (raise_response_error response (Some ValueError) true)
  else ret result.

(** [result.get('total', len(result.get('data')))]: Python evaluates the
    arguments of the outer [get] before calling it. *)
Definition total_or_len (result : value) : outcome value :=
  match py_get result "data" PyNone with
  | Raise e => Raise e
  | Return page =>
      match py_len page with
      | Raise e => Raise e
      | Return n => py_get result "total" (PyInt (Z.of_nat n))
      end
  end.

(** The body of every [count]. *)
Definition count_at (path : list string) : M value :=
  response <- session_get (get_url path []) (get_headers []) ;;
  result <- lift (json response) ;;
  amount <- lift (total_or_len result) ;;
  ret amount.

(** The test on the status in every [delete]. *)
Definition expect_gone (response : Response) (message : string) : M unit :=
  if negb ((status_code response =? NO_CONTENT)%Z
           || (status_code response =? NOT_FOUND)%Z)
  then raise (ValueError message)
  else ret tt.

(** [values['value.%s' % key] = fields[key]] for every key *)
Definition prefix_values (fields : dict) : dict :=
  fold_left (fun values kv => dict_set ("value." ++ fst kv) (snd kv) values)
            fields [].

(** [if enabled is not None and isinstance(enabled, bool):
       data['enabled'] = enabled] *)
Definition with_enabled (enabled : value) (d : dict) : dict :=
  if is_not_None enabled && isinstance_bool enabled
  then dict_set "enabled" enabled d else d.

(** [if x is not None: data[k] = x] *)
Definition with_present (k : string) (x : value) (d : dict) : dict :=
  if is_not_None x then dict_set k x d else d.
End RestClient.

(* ------------------------------------------------------------------ *)
(** ** The resource clients *)

Module APIPluginConfigurationAdminClient.
Section Methods.
Context `{Runtime}.
Variables (api_url api_name_or_id : string).

Definition create (plugin_name : string) (enabled consumer_id : value)
    (fields : dict) : M value :=
  let values := prefix_values fields in
  let data := dict_update
    [("name", PyStr plugin_name); ("consumer_id", consumer_id)] values in
  let data := with_enabled enabled data in
  response <- session_post
    (get_url api_url ["apis"; api_name_or_id; "plugins"] []) data
    (get_headers []) ;;
  expect_created response.

Definition create_or_update (plugin_name : string)
    (plugin_configuration_id enabled consumer_id : value)
    (fields : dict) : M value :=
  let values := prefix_values fields in
  let data := dict_update
    [("name", PyStr plugin_name); ("consumer_id", consumer_id)] values in
  let data := with_enabled enabled data in
  let data := with_present "id" plugin_configuration_id data in
  response <- session_put
    (get_url api_url ["apis"; api_name_or_id; "plugins"] []) data
    (get_headers []) ;;
  expect_created_or_ok response.

Definition update (plugin_name : string) (enabled consumer_id : value)
    (fields : dict) : M value :=
  let values := prefix_values fields in
  let data_struct_update := dict_update [("name", PyStr plugin_name)] values in
  let data_struct_update :=
    with_present "consumer_id" consumer_id data_struct_update in
  let data_struct_update := with_enabled enabled data_struct_update in
  let u := get_url api_url ["apis"; api_name_or_id; "plugins"; plugin_name] [] in
  response <- session_patch u data_struct_update (get_headers []) ;;
  expect_ok response.

Definition list_query (size offset : value) (filter_fields : dict) : dict :=
  let query_params := filter_fields in
  let query_params := dict_set "size" size query_params in
  if is_not_None offset
  then dict_set "offset" offset query_params
  else query_params.

Definition list (size offset : value) (filter_fields : dict) : M value :=
  lift (assert_dict_keys_in filter_fields
          ["id"; "name"; "api_id"; "consumer_id"]) ;;;
  let query_params := list_query size offset filter_fields in
  let u := get_url api_url ["apis"; api_name_or_id; "plugins"] query_params in
  response <- session_get u (get_headers []) ;;
  expect_ok response.

Definition delete_once (plugin_name_or_id : string) : M unit :=
  response <- session_delete
    (get_url api_url ["apis"; api_name_or_id; "plugins"; plugin_name_or_id] [])
    (get_headers []) ;;
  expect_gone response
    ("Could not delete Plugin Configuration (status: "
       ++ decimal (status_code response) ++ "): " ++ plugin_name_or_id).

Definition delete (plugin_name_or_id : string) : M unit :=
  on_exception 3 (delete_once plugin_name_or_id).

Definition count : M value :=
  count_at api_url ["apis"; api_name_or_id; "plugins"].
End Methods.
End APIPluginConfigurationAdminClient.

Module APIAdminClient.
Section Methods.
Context `{Runtime}.
Variable api_url : string.

Definition count : M value := count_at api_url ["apis"].

Definition add (target_url name public_dns path strip_path preserve_host : value)
    : M value :=
  response <- session_post (get_url api_url ["apis"] [])
    [("name", name);
     ("public_dns", py_or public_dns PyNone);
     ("path", py_or path PyNone);
     ("strip_path", strip_path);
     ("preserve_host", preserve_host);
     ("target_url", target_url)]
    (get_headers []) ;;
  expect_created response.

Definition add_or_update
    (target_url api_id name public_dns path strip_path preserve_host : value)
    : M value :=
  let data :=
    [("name", name);
     ("public_dns", py_or public_dns PyNone);
     ("path", py_or path PyNone);
     ("strip_path", strip_path);
     ("preserve_host", preserve_host);
     ("target_url", target_url)] in
  let data := with_present "id" api_id data in
  response <- session_put (get_url api_url ["apis"] []) data (get_headers []) ;;
  expect_created_or_ok response.

Definition update (name_or_id : string) (target_url : value) (fields : dict)
    : M value :=
  lift (assert_dict_keys_in fields
          ["name"; "public_dns"; "path"; "strip_path"; "preserve_host"]) ;;;
  response <- session_patch (get_url api_url ["apis"; name_or_id] [])
    (dict_update [("target_url", target_url)] fields) (get_headers []) ;;
  expect_ok response.

Definition delete_once (name_or_id : string) : M unit :=
  response <- session_delete (get_url api_url ["apis"; name_or_id] [])
    (get_headers []) ;;
  expect_gone response
    ("Could not delete API (status: " ++ decimal (status_code response)
       ++ "): " ++ name_or_id).

Definition delete (name_or_id : string) : M unit :=
  on_exception 3 (delete_once name_or_id).

Definition retrieve (name_or_id : string) : M value :=
  response <- session_get (get_url api_url ["apis"; name_or_id] [])
    (get_headers []) ;;
  expect_ok response.

Definition list_query (size offset : value) (filter_fields : dict) : dict :=
  let query_params := filter_fields in
  let query_params := dict_set "size" size query_params in
  if truthy offset
  then dict_set "offset" offset query_params
  else query_params.

Definition list (size offset : value) (filter_fields : dict) : M value :=
  lift (assert_dict_keys_in filter_fields
          ["id"; "name"; "public_dns"; "path"]) ;;;
  let query_params := list_query size offset filter_fields in
  let u := get_url api_url ["apis"] query_params in
  response <- session_get u (get_headers []) ;;
  expect_ok response.
End Methods.
End APIAdminClient.

(** The three credential clients of a consumer differ in the path segment,
    in the fields and in the name used by the message of [delete]. *)
Module BasicAuthAdminClient.
Section Methods.
Context `{Runtime}.
Variables (api_url consumer_id : string).

Definition create_or_update (basic_auth_id username password : value)
    : M value :=
  let data := [("username", username); ("password", password)] in
  let data := with_present "id" basic_auth_id data in
  response <- session_put
    (get_url api_url ["consumers"; consumer_id; "basicauth"] []) data
    (get_headers []) ;;
  expect_created_or_ok response.

Definition create (username password : value) : M value :=
  response <- session_post
    (get_url api_url ["consumers"; consumer_id; "basicauth"] [])
    [("username", username); ("password", password)]
    (get_headers []) ;;
  expect_created response.

Definition list_query (size offset : value) (filter_fields : dict) : dict :=
  let query_params := filter_fields in
  let query_params := dict_set "size" size query_params in
  if truthy offset
  then dict_set "offset" offset query_params
  else query_params.

Definition list (size offset : value) (filter_fields : dict) : M value :=
  lift (assert_dict_keys_in filter_fields ["id"; "username"]) ;;;
  let query_params := list_query size offset filter_fields in
  let u := get_url api_url ["consumers"; consumer_id; "basicauth"] query_params in
  response <- session_get u (get_headers []) ;;
  expect_ok response.

Definition delete_once (basic_auth_id : string) : M unit :=
  let u := get_url api_url ["consumers"; consumer_id; "basicauth"; basic_auth_id] [] in
  response <- session_delete u (get_headers []) ;;
  expect_gone response
    ("Could not delete Basic Auth (status: " ++ decimal (status_code response)
       ++ "): " ++ basic_auth_id ++ " for Consumer: " ++ consumer_id).

Definition delete (basic_auth_id : string) : M unit :=
  on_exception 3 (delete_once basic_auth_id).

Definition retrieve (basic_auth_id : string) : M value :=
  response <- session_get
    (get_url api_url ["consumers"; consumer_id; "basicauth"; basic_auth_id] [])
    (get_headers []) ;;
  expect_ok response.

Definition count : M value :=
  count_at api_url ["consumers"; consumer_id; "basicauth"].

Definition update (basic_auth_id : string) (fields : dict) : M value :=
  lift (assert_dict_keys_in fields ["username"; "password"]) ;;;
  response <- session_patch
    (get_url api_url ["consumers"; consumer_id; "basicauth"; basic_auth_id] [])
    fields (get_headers []) ;;
  expect_ok response.
End Methods.
End BasicAuthAdminClient.

Module KeyAuthAdminClient.
Section Methods.
Context `{Runtime}.
Variables (api_url consumer_id : string).

Definition create_or_update (key_auth_id key : value) : M value :=
  let data := [("key", key)] in
  let data := with_present "id" key_auth_id data in
  response <- session_put
    (get_url api_url ["consumers"; consumer_id; "keyauth"] []) data
    (get_headers []) ;;
  expect_created_or_ok response.

Definition create (key : value) : M value :=
  response <- session_post
    (get_url api_url ["consumers"; consumer_id; "keyauth"] [])
    [("key", key)] (get_headers []) ;;
  expect_created response.

Definition list_query (size offset : value) (filter_fields : dict) : dict :=
  let query_params := filter_fields in
  let query_params := dict_set "size" size query_params in
  if truthy offset
  then dict_set "offset" offset query_params
  else query_params.

Definition list (size offset : value) (filter_fields : dict) : M value :=
  lift (assert_dict_keys_in filter_fields ["id"; "key"]) ;;;
  let query_params := list_query size offset filter_fields in
  let u := get_url api_url ["consumers"; consumer_id; "keyauth"] query_params in
  response <- session_get u (get_headers []) ;;
  expect_ok response.

Definition delete_once (key_auth_id : string) : M unit :=
  let u := get_url api_url ["consumers"; consumer_id; "keyauth"; key_auth_id] [] in
  response <- session_delete u (get_headers []) ;;
  expect_gone response
    ("Could not delete Key Auth (status: " ++ decimal (status_code response)
       ++ "): " ++ key_auth_id ++ " for Consumer: " ++ consumer_id).

Definition delete (key_auth_id : string) : M unit :=
  on_exception 3 (delete_once key_auth_id).

Definition retrieve (key_auth_id : string) : M value :=
  response <- session_get
    (get_url api_url ["consumers"; consumer_id; "keyauth"; key_auth_id] [])
    (get_headers []) ;;
  expect_ok response.

Definition count : M value :=
  count_at api_url ["consumers"; consumer_id; "keyauth"].

Definition update (key_auth_id : string) (fields : dict) : M value :=
  lift (assert_dict_keys_in fields ["key"]) ;;;
  response <- session_patch
    (get_url api_url ["consumers"; consumer_id; "keyauth"; key_auth_id] [])
    fields (get_headers []) ;;
  expect_ok response.
End Methods.
End KeyAuthAdminClient.

Module OAuth2AdminClient.
Section Methods.
Context `{Runtime}.
Variables (api_url consumer_id : string).

Definition create_or_update
    (oauth2_id name redirect_uri client_id client_secret : value) : M value :=
  let data :=
    [("name", name); ("redirect_uri", redirect_uri);
     ("client_id", client_id); ("client_secret", client_secret)] in
  let data := with_present "id" oauth2_id data in
  response <- session_put
    (get_url api_url ["consumers"; consumer_id; "oauth2"] []) data
    (get_headers []) ;;
  expect_created_or_ok response.

Definition create (name redirect_uri client_id client_secret : value)
    : M value :=
  response <- session_post
    (get_url api_url ["consumers"; consumer_id; "oauth2"] [])
    [("name", name); ("redirect_uri", redirect_uri);
     ("client_id", client_id); ("client_secret", client_secret)]
    (get_headers []) ;;
  expect_created response.

Definition list_query (size offset : value) (filter_fields : dict) : dict :=
  let query_params := filter_fields in
  let query_params := dict_set "size" size query_params in
  if truthy offset
  then dict_set "offset" offset query_params
  else query_params.

Definition list (size offset : value) (filter_fields : dict) : M value :=
  lift (assert_dict_keys_in filter_fields
          ["id"; "name"; "redirect_url"; "client_id"]) ;;;
  let query_params := list_query size offset filter_fields in
  let u := get_url api_url ["consumers"; consumer_id; "oauth2"] query_params in
  response <- session_get u (get_headers []) ;;
  expect_ok response.

Definition delete_once (oauth2_id : string) : M unit :=
  let u := get_url api_url ["consumers"; consumer_id; "oauth2"; oauth2_id] [] in
  response <- session_delete u (get_headers []) ;;
  expect_gone response
    ("Could not delete OAuth2 (status: " ++ decimal (status_code response)
       ++ "): " ++ oauth2_id ++ " for Consumer: " ++ consumer_id).

Definition delete (oauth2_id : string) : M unit :=
  on_exception 3 (delete_once oauth2_id).

Definition retrieve (oauth2_id : string) : M value :=
  response <- session_get
    (get_url api_url ["consumers"; consumer_id; "oauth2"; oauth2_id] [])
    (get_headers []) ;;
  expect_ok response.

Definition count : M value :=
  count_at api_url ["consumers"; consumer_id; "oauth2"].

Definition update (oauth2_id : string) (fields : dict) : M value :=
  lift (assert_dict_keys_in fields
          ["name"; "redirect_uri"; "client_id"; "client_secret"]) ;;;
  response <- session_patch
    (get_url api_url ["consumers"; consumer_id; "oauth2"; oauth2_id] [])
    fields (get_headers []) ;;
  expect_ok response.
End Methods.
End OAuth2AdminClient.

Module ConsumerAdminClient.
Section Methods.
Context `{Runtime}.
Variable api_url : string.

Definition count : M value := count_at api_url ["consumers"].

Definition create (username custom_id : value) : M value :=
  response <- session_post (get_url api_url ["consumers"] [])
    [("username", username); ("custom_id", custom_id)]
    (get_headers []) ;;
  expect_created response.

Definition create_or_update (consumer_id username custom_id : value)
    : M value :=
  let data := [("username", username); ("custom_id", custom_id)] in
  let data := with_present "id" consumer_id data in
  response <- session_put (get_url api_url ["consumers"] []) data
    (get_headers []) ;;
  expect_created_or_ok response.

Definition update (username_or_id : string) (fields : dict) : M value :=
  lift (assert_dict_keys_in fields ["username"; "custom_id"]) ;;;
  response <- session_patch (get_url api_url ["consumers"; username_or_id] [])
    fields (get_headers []) ;;
  expect_ok response.

Definition list_query (size offset : value) (filter_fields : dict) : dict :=
  let query_params := filter_fields in
  let query_params := dict_set "size" size query_params in
  if truthy offset
  then dict_set "offset" offset query_params
  else query_params.

Definition list (size offset : value) (filter_fields : dict) : M value :=
  lift (assert_dict_keys_in filter_fields ["id"; "custom_id"; "username"]) ;;;
  let query_params := list_query size offset filter_fields in
  let u := get_url api_url ["consumers"] query_params in
  response <- session_get u (get_headers []) ;;
  expect_ok response.

Definition delete_once (username_or_id : string) : M unit :=
  response <- session_delete (get_url api_url ["consumers"; username_or_id] [])
    (get_headers []) ;;
  expect_gone response
    ("Could not delete Consumer (status: " ++ decimal (status_code response)
       ++ "): " ++ username_or_id).

Definition delete (username_or_id : string) : M unit :=
  on_exception 3 (delete_once username_or_id).

Definition retrieve (username_or_id : string) : M value :=
  response <- session_get (get_url api_url ["consumers"; username_or_id] [])
    (get_headers []) ;;
  expect_ok response.
End Methods.
End ConsumerAdminClient.

Module PluginAdminClient.
Section Methods.
Context `{Runtime}.
Variable api_url : string.

Definition list : M value :=
  response <- session_get (get_url api_url ["plugins"] []) (get_headers []) ;;
  expect_ok response.

Definition retrieve_schema (plugin_name : string) : M value :=
  response <- session_get (get_url api_url ["plugins"; plugin_name; "schema"] [])
    (get_headers []) ;;
  expect_ok response.
End Methods.
End PluginAdminClient.

(* ------------------------------------------------------------------ *)
(** ** KongAdminClient: every call a user can make

    [kong.apis], [kong.consumers] and [kong.plugins] are the clients of the
    facade; [kong.apis.plugins(id)], [kong.consumers.basic_auth(id)],
    [kong.consumers.key_auth(id)] and [kong.consumers.oauth2(id)] build the
    nested ones.  A [call] names one method of one of them with its
    arguments. *)

Inductive plugin_configuration_call : Type :=
| PcCreate (plugin_name : string) (enabled consumer_id : value) (fields : dict)
| PcCreateOrUpdate (plugin_name : string)
    (plugin_configuration_id enabled consumer_id : value) (fields : dict)
| PcUpdate (plugin_name : string) (enabled consumer_id : value) (fields : dict)
| PcList (size offset : value) (filter_fields : dict)
| PcDelete (plugin_name_or_id : string)
| PcCount.

Inductive api_call : Type :=
| ApiCount
| ApiAdd (target_url name public_dns path strip_path preserve_host : value)
| ApiAddOrUpdate
    (target_url api_id name public_dns path strip_path preserve_host : value)
| ApiUpdate (name_or_id : string) (target_url : value) (fields : dict)
| ApiDelete (name_or_id : string)
| ApiRetrieve (name_or_id : string)
| ApiList (size offset : value) (filter_fields : dict).

Inductive basic_auth_call : Type :=
| BaCreateOrUpdate (basic_auth_id username password : value)
| BaCreate (username password : value)
| BaList (size offset : value) (filter_fields : dict)
| BaDelete (basic_auth_id : string)
| BaRetrieve (basic_auth_id : string)
| BaCount
| BaUpdate (basic_auth_id : string) (fields : dict).

Inductive key_auth_call : Type :=
| KaCreateOrUpdate (key_auth_id key : value)
| KaCreate (key : value)
| KaList (size offset : value) (filter_fields : dict)
| KaDelete (key_auth_id : string)
| KaRetrieve (key_auth_id : string)
| KaCount
| KaUpdate (key_auth_id : string) (fields : dict).

Inductive oauth2_call : Type :=
| OaCreateOrUpdate (oauth2_id name redirect_uri client_id client_secret : value)
| OaCreate (name redirect_uri client_id client_secret : value)
| OaList (size offset : value) (filter_fields : dict)
| OaDelete (oauth2_id : string)
| OaRetrieve (oauth2_id : string)
| OaCount
| OaUpdate (oauth2_id : string) (fields : dict).

Inductive consumer_call : Type :=
| CoCount
| CoCreate (username custom_id : value)
| CoCreateOrUpdate (consumer_id username custom_id : value)
| CoUpdate (username_or_id : string) (fields : dict)
| CoList (size offset : value) (filter_fields : dict)
| CoDelete (username_or_id : string)
| CoRetrieve (username_or_id : string).

Inductive plugin_call : Type :=
| PlList
| PlRetrieveSchema (plugin_name : string).

Inductive call : Type :=
| Apis (m : api_call)
| ApiPlugins (api_name_or_id : string) (m : plugin_configuration_call)
| Consumers (m : consumer_call)
| BasicAuth (consumer_id : string) (m : basic_auth_call)
| KeyAuth (consumer_id : string) (m : key_auth_call)
| OAuth2 (consumer_id : string) (m : oauth2_call)
| Plugins (m : plugin_call).

(** A method without [return] gives [None]. *)
Definition returning_None (m : M unit) : M value := m ;;; ret PyNone.

Section Facade.
Context `{Runtime}.
Variable api_url : string.

Definition run (c : call) : M value :=
  match c with
  | Apis m =>
      match m with
      | ApiCount => APIAdminClient.count api_url
      | ApiAdd t n d p s h => APIAdminClient.add api_url t n d p s h
      | ApiAddOrUpdate t i n d p s h =>
          APIAdminClient.add_or_update api_url t i n d p s h
      | ApiUpdate i t f => APIAdminClient.update api_url i t f
      | ApiDelete i => returning_None (APIAdminClient.delete api_url i)
      | ApiRetrieve i => APIAdminClient.retrieve api_url i
      | ApiList s o f => APIAdminClient.list api_url s o f
      end
  | ApiPlugins a m =>
      match m with
      | PcCreate n e c f =>
          APIPluginConfigurationAdminClient.create api_url a n e c f
      | PcCreateOrUpdate n i e c f =>
          APIPluginConfigurationAdminClient.create_or_update api_url a n i e c f
      | PcUpdate n e c f =>
          APIPluginConfigurationAdminClient.update api_url a n e c f
      | PcList s o f => APIPluginConfigurationAdminClient.list api_url a s o f
      | PcDelete i =>
          returning_None (APIPluginConfigurationAdminClient.delete api_url a i)
      | PcCount => APIPluginConfigurationAdminClient.count api_url a
      end
  | Consumers m =>
      match m with
      | CoCount => ConsumerAdminClient.count api_url
      | CoCreate u c => ConsumerAdminClient.create api_url u c
      | CoCreateOrUpdate i u c => ConsumerAdminClient.create_or_update api_url i u c
      | CoUpdate i f => ConsumerAdminClient.update api_url i f
      | CoList s o f => ConsumerAdminClient.list api_url s o f
      | CoDelete i => returning_None (ConsumerAdminClient.delete api_url i)
      | CoRetrieve i => ConsumerAdminClient.retrieve api_url i
      end
  | BasicAuth c m =>
      match m with
      | BaCreateOrUpdate i u p => BasicAuthAdminClient.create_or_update api_url c i u p
      | BaCreate u p => BasicAuthAdminClient.create api_url c u p
      | BaList s o f => BasicAuthAdminClient.list api_url c s o f
      | BaDelete i => returning_None (BasicAuthAdminClient.delete api_url c i)
      | BaRetrieve i => BasicAuthAdminClient.retrieve api_url c i
      | BaCount => BasicAuthAdminClient.count api_url c
      | BaUpdate i f => BasicAuthAdminClient.update api_url c i f
      end
  | KeyAuth c m =>
      match m with
      | KaCreateOrUpdate i k => KeyAuthAdminClient.create_or_update api_url c i k
      | KaCreate k => KeyAuthAdminClient.create api_url c k
      | KaList s o f => KeyAuthAdminClient.list api_url c s o f
      | KaDelete i => returning_None (KeyAuthAdminClient.delete api_url c i)
      | KaRetrieve i => KeyAuthAdminClient.retrieve api_url c i
      | KaCount => KeyAuthAdminClient.count api_url c
      | KaUpdate i f => KeyAuthAdminClient.update api_url c i f
      end
  | OAuth2 c m =>
      match m with
      | OaCreateOrUpdate i n r ci cs =>
          OAuth2AdminClient.create_or_update api_url c i n r ci cs
      | OaCreate n r ci cs => OAuth2AdminClient.create api_url c n r ci cs
      | OaList s o f => OAuth2AdminClient.list api_url c s o f
      | OaDelete i => returning_None (OAuth2AdminClient.delete api_url c i)
      | OaRetrieve i => OAuth2AdminClient.retrieve api_url c i
      | OaCount => OAuth2AdminClient.count api_url c
      | OaUpdate i f => OAuth2AdminClient.update api_url c i f
      end
  | Plugins m =>
      match m with
      | PlList => PluginAdminClient.list api_url
      | PlRetrieveSchema n => PluginAdminClient.retrieve_schema api_url n
      end
  end.
End Facade.

(** The operation of the resource client pattern a call is. *)
Inductive operation : Type :=
| OpCreate | OpCreateOrUpdate | OpUpdate | OpList | OpRetrieve | OpCount | OpDelete.

Definition operation_of (c : call) : operation :=
  match c with
  | Apis m =>
      match m with
      | ApiCount => OpCount | ApiAdd _ _ _ _ _ _ => OpCreate
      | ApiAddOrUpdate _ _ _ _ _ _ _ => OpCreateOrUpdate
      | ApiUpdate _ _ _ => OpUpdate | ApiDelete _ => OpDelete
      | ApiRetrieve _ => OpRetrieve | ApiList _ _ _ => OpList
      end
  | ApiPlugins _ m =>
      match m with
      | PcCreate _ _ _ _ => OpCreate | PcCreateOrUpdate _ _ _ _ _ => OpCreateOrUpdate
      | PcUpdate _ _ _ _ => OpUpdate | PcList _ _ _ => OpList
      | PcDelete _ => OpDelete | PcCount => OpCount
      end
  | Consumers m =>
      match m with
      | CoCount => OpCount | CoCreate _ _ => OpCreate
      | CoCreateOrUpdate _ _ _ => OpCreateOrUpdate | CoUpdate _ _ => OpUpdate
      | CoList _ _ _ => OpList | CoDelete _ => OpDelete | CoRetrieve _ => OpRetrieve
      end
  | BasicAuth _ m =>
      match m with
      | BaCreateOrUpdate _ _ _ => OpCreateOrUpdate | BaCreate _ _ => OpCreate
      | BaList _ _ _ => OpList | BaDelete _ => OpDelete | BaRetrieve _ => OpRetrieve
      | BaCount => OpCount | BaUpdate _ _ => OpUpdate
      end
  | KeyAuth _ m =>
      match m with
      | KaCreateOrUpdate _ _ => OpCreateOrUpdate | KaCreate _ => OpCreate
      | KaList _ _ _ => OpList | KaDelete _ => OpDelete | KaRetrieve _ => OpRetrieve
      | KaCount => OpCount | KaUpdate _ _ => OpUpdate
      end
  | OAuth2 _ m =>
      match m with
      | OaCreateOrUpdate _ _ _ _ _ => OpCreateOrUpdate | OaCreate _ _ _ _ => OpCreate
      | OaList _ _ _ => OpList | OaDelete _ => OpDelete | OaRetrieve _ => OpRetrieve
      | OaCount => OpCount | OaUpdate _ _ => OpUpdate
      end
  | Plugins m =>
      match m with
      | PlList => OpList | PlRetrieveSchema _ => OpRetrieve
      end
  end.

(* ------------------------------------------------------------------ *)
(** ** The throttling adapter and the session

    [time.time()] reads [now]; [time.sleep(d)] moves it on by [d] and is
    recorded in [slept]; the send of the parent class takes [latency] and
    the moment it begins is recorded in [started].  Both lists are newest
    first. *)

Record Timeline : Type := {
  now : Q;
  slept : list Q;
  started : list Q
}.

Definition Qltb (x y : Q) : bool :=
  (Qnum x * Zpos (Qden y) <? Qnum y * Zpos (Qden x))%Z.

Definition time_sleep (d : Q) (t : Timeline) : Timeline :=
  {| now := (now t + d)%Q; slept := d :: slept t; started := started t |}.

(** [HTTPAdapter.send]: the request goes out at [now] and the response is
    there [latency] later. *)
Definition HTTPAdapter_send (latency : Q) (t : Timeline) : Timeline :=
  {| now := (now t + latency)%Q; slept := slept t; started := now t :: started t |}.

Module ThrottlingHTTPAdapter.
Record t : Type := { _last_request : option Q }.

Definition __init__ : t := {| _last_request := None |}.

Section Send.
Context `{Runtime}.

Definition send (latency : Q) (self : t) (tl : Timeline) : t * Timeline :=
  let tl :=
    match _last_request self with
    | Some last =>
        if Qltb 0 KONG_MINIMUM_REQUEST_INTERVAL then
          let diff := (now tl - last)%Q in
          if Qltb 0 diff && Qltb diff KONG_MINIMUM_REQUEST_INTERVAL
          then time_sleep diff tl
          else tl
        else tl
    | None => tl
    end in
  let tl := HTTPAdapter_send latency tl in
  ({| _last_request := Some (now tl) |}, tl).
End Send.
End ThrottlingHTTPAdapter.

(** A [requests] session as the client uses it: the adapter mounted for
    [api_url], if any. *)
Record Session : Type := {
  adapter : option ThrottlingHTTPAdapter.t
}.

Section Session.
Context `{Runtime}.

Definition new_session : Session :=
  {| adapter :=
       if Qltb 0 KONG_MINIMUM_REQUEST_INTERVAL
       then Some ThrottlingHTTPAdapter.__init__
       else None |}.

(** The property [RestClient.session], on the field [_session]. *)
Definition session (_session : option Session) : Session :=
  match _session with
  | None => new_session
  | Some s => if negb KONG_REUSE_CONNECTIONS then new_session else s
  end.

(** One request of a client: the session is looked up and the request goes
    through the adapter mounted on it.  The result is the new [_session]. *)
Definition session_send (latency : Q) (_session : option Session)
    (tl : Timeline) : option Session * Timeline :=
  let s := session _session in
  match adapter s with
  | Some a =>
      let (a', tl') := ThrottlingHTTPAdapter.send latency a tl in
      (Some {| adapter := Some a' |}, tl')
  | None => (Some s, HTTPAdapter_send latency tl)
  end.

(** The caller does something else for [d] seconds. *)
Definition idle (d : Q) (tl : Timeline) : Timeline :=
  {| now := (now tl + d)%Q; slept := slept tl; started := started tl |}.

(** Two consecutive requests of one client, [gap] seconds of other work
    between the end of the first and the second call. *)
Definition two_requests (t0 latency1 gap latency2 : Q) : Timeline :=
  let tl := {| now := t0; slept := []; started := [] |} in
  let (s, tl) := session_send latency1 None tl in
  let tl := idle gap tl in
  snd (session_send latency2 s tl).
End Session.

(* ------------------------------------------------------------------ *)
(** ** A runtime to evaluate the model on concrete calls

    Reference resolution is right for a base URL without a path, the
    encoding for components made of unreserved characters, [repr] for
    strings without quotes or escapes (Python 3). *)

Fixpoint repr3 (v : value) : string :=
  match v with
  | PyNone => "None"
  | PyBool true => "True"
  | PyBool false => "False"
  | PyInt n => decimal n
  | PyStr s => "'" ++ s ++ "'"
  | PyList l => "[" ++ String.concat ", " (map repr3 l) ++ "]"
  | PyDict d =>
      "{" ++ String.concat ", "
               (map (fun kv => let '(k, x) := kv in "'" ++ k ++ "': " ++ repr3 x) d)
          ++ "}"
  end.

Definition runtime (interval : Q) (reuse : bool) : Runtime :=
  {| url_resolve := fun base u => rstrip_slash base ++ "/" ++ u;
     quote_plus := fun s => s;
     repr_container := repr3;
     KONG_MINIMUM_REQUEST_INTERVAL := interval;
     KONG_REUSE_CONNECTIONS := reuse |}.

(** The defaults of the environment: no throttling, connections reused. *)
Definition default_runtime : Runtime := runtime 0 true.

Definition world (responses : list Response) : World :=
  {| inbox := responses; outbox := []; backoffs := 0 |}.

(* ------------------------------------------------------------------ *)
(** ** Vocabulary of the properties *)

(** A string ends in exactly one slash: a slash follows a stem that does not
    end in one. *)
Definition single_trailing_slash (u : string) : Prop :=
  exists stem, u = stem ++ "/" /\ ends_with_slash stem = false.

(** The request goes out and [after] looks at the response. *)
Definition round_trip {A} (req : Request) (after : Response -> M A) : M A :=
  response <- session_request req ;; after response.

(** The world once [req] is sent and the backend is left with [rest]. *)
Definition sent (req : Request) (rest : list Response) (w : World) : World :=
  {| inbox := rest; outbox := req :: outbox w; backoffs := backoffs w |}.

(** The world after a pause of the retry decorator. *)
Definition paused (w : World) : World :=
  {| inbox := inbox w; outbox := outbox w; backoffs := S (backoffs w) |}.

(** [m] leaves the world as it is. *)
Definition stateless {A} (m : M A) : Prop := forall w, snd (m w) = w.

(** [m] never pauses and sends at most one request, which takes the next
    response of the backend. *)
Definition single_shot {A} (m : M A) : Prop :=
  forall w,
    backoffs (snd (m w)) = backoffs w
    /\ (snd (m w) = w
        \/ exists req, outbox (snd (m w)) = req :: outbox w
                       /\ inbox (snd (m w)) = tl (inbox w)).

(** The keyword arguments a [list] or [update] call checks, with the
    whitelist it checks them against.  [update] of a plugin configuration
    and [list] of the plugins check nothing. *)
Definition checked_fields (c : call) : option (dict * list string) :=
  match c with
  | Apis (ApiUpdate _ _ f) =>
      Some (f, ["name"; "public_dns"; "path"; "strip_path"; "preserve_host"])
  | Apis (ApiList _ _ f) => Some (f, ["id"; "name"; "public_dns"; "path"])
  | ApiPlugins _ (PcList _ _ f) => Some (f, ["id"; "name"; "api_id"; "consumer_id"])
  | Consumers (CoUpdate _ f) => Some (f, ["username"; "custom_id"])
  | Consumers (CoList _ _ f) => Some (f, ["id"; "custom_id"; "username"])
  | BasicAuth _ (BaUpdate _ f) => Some (f, ["username"; "password"])
  | BasicAuth _ (BaList _ _ f) => Some (f, ["id"; "username"])
  | KeyAuth _ (KaUpdate _ f) => Some (f, ["key"])
  | KeyAuth _ (KaList _ _ f) => Some (f, ["id"; "key"])
  | OAuth2 _ (OaUpdate _ f) =>
      Some (f, ["name"; "redirect_uri"; "client_id"; "client_secret"])
  | OAuth2 _ (OaList _ _ f) => Some (f, ["id"; "name"; "redirect_url"; "client_id"])
  | _ => None
  end.

Definition guard_of (c : call) : outcome unit :=
  match checked_fields c with
  | Some (f, whitelist) => assert_dict_keys_in f whitelist
  | None => Return tt
  end.

(** The statuses an operation takes for success; [count] does not look at
    the status. *)
Definition accepts (op : operation) (status : Z) : bool :=
  match op with
  | OpCreate => (status =? CREATED)%Z
  | OpCreateOrUpdate => (status =? CREATED)%Z || (status =? OK)%Z
  | OpUpdate | OpList | OpRetrieve => (status =? OK)%Z
  | OpCount => true
  | OpDelete => (status =? NO_CONTENT)%Z || (status =? NOT_FOUND)%Z
  end.

(** One try of a [delete]: the request and the test on the status. *)
Definition attempt (req : Request) (message : Response -> string) : M unit :=
  round_trip req (fun response => expect_gone response (message response)).

Fixpoint starts_with (p s : string) : bool :=
  match p, s with
  | EmptyString, _ => true
  | String a p', String b s' => Ascii.eqb a b && starts_with p' s'
  | String _ _, EmptyString => false
  end.

(** [needle in hay] *)
Fixpoint contains (needle hay : string) : bool :=
  starts_with needle hay
  || match hay with
     | EmptyString => false
     | String _ rest => contains needle rest
     end.

(** The class of the error a rejected status is turned into: only [create]
    and [create_or_update] tell a conflict from the rest. *)
Definition error_class (op : operation) (status : Z) : string -> exn :=
  match op with
  | OpCreate | OpCreateOrUpdate =>
      if (status =? CONFLICT)%Z then ConflictError else ValueError
  | _ => ValueError
  end.

(** Responses used in the examples. *)
Definition created (record : dict) : Response :=
  {| status_code := 201; body := JsonBody (PyDict record) |}.

Definition ok (record : dict) : Response :=
  {| status_code := 200; body := JsonBody (PyDict record) |}.

Definition no_content : Response :=
  {| status_code := 204; body := RawBody "" |}.

Definition not_found : Response :=
  {| status_code := 404; body := JsonBody (PyDict [("message", PyStr "Not found")]) |}.

Definition conflict : Response :=
  {| status_code := 409;
     body := JsonBody (PyDict [("username", PyStr "already exists with value 'alice'")]) |}.

Definition server_error : Response :=
  {| status_code := 500;
     body := JsonBody (PyDict [("message", PyStr "An unexpected error occurred")]) |}.

Definition bad_gateway (status : Z) : Response :=
  {| status_code := status; body := RawBody "<html><body>Bad Gateway</body></html>" |}.

(** The identifier a [delete] call is given. *)
Definition deleted_id (c : call) : option string :=
  match c with
  | Apis (ApiDelete i) | ApiPlugins _ (PcDelete i) | Consumers (CoDelete i)
  | BasicAuth _ (BaDelete i) | KeyAuth _ (KaDelete i) | OAuth2 _ (OaDelete i) =>
      Some i
  | _ => None
  end.

(** The identifier of the parent a nested client was built for. *)
Definition parent_id (c : call) : option string :=
  match c with
  | ApiPlugins a _ => Some a
  | BasicAuth p _ | KeyAuth p _ | OAuth2 p _ => Some p
  | Apis _ | Consumers _ | Plugins _ => None
  end.

(** The credential clients of a consumer. *)
Definition of_consumer (c : call) : bool :=
  match c with
  | BasicAuth _ _ | KeyAuth _ _ | OAuth2 _ _ => true
  | _ => false
  end.

(* ------------------------------------------------------------------ *)
(** ** Vocabulary of the further properties *)

(** The HTTP method of an operation. *)
Definition verb_of (op : operation) : verb :=
  match op with
  | OpCreate => POST
  | OpCreateOrUpdate => PUT
  | OpUpdate => PATCH
  | OpList | OpRetrieve | OpCount => GET
  | OpDelete => DELETE
  end.

(** The path of the collection a client works on. *)
Definition base_path (c : call) : list string :=
  match c with
  | Apis _ => ["apis"]
  | ApiPlugins a _ => ["apis"; a; "plugins"]
  | Consumers _ => ["consumers"]
  | BasicAuth p _ => ["consumers"; p; "basicauth"]
  | KeyAuth p _ => ["consumers"; p; "keyauth"]
  | OAuth2 p _ => ["consumers"; p; "oauth2"]
  | Plugins _ => ["plugins"]
  end.

(** The name, the [enabled] argument, the consumer and the keyword arguments
    of the three methods that write a plugin configuration. *)
Definition plugin_arguments (m : plugin_configuration_call)
    : option (string * value * value * dict) :=
  match m with
  | PcCreate n e c f | PcCreateOrUpdate n _ e c f | PcUpdate n e c f =>
      Some (n, e, c, f)
  | _ => None
  end.

(** The identifier argument of a [create_or_update]. *)
Definition given_id (c : call) : option value :=
  match c with
  | Apis (ApiAddOrUpdate _ i _ _ _ _ _) => Some i
  | ApiPlugins _ (PcCreateOrUpdate _ i _ _ _) => Some i
  | Consumers (CoCreateOrUpdate i _ _) => Some i
  | BasicAuth _ (BaCreateOrUpdate i _ _) => Some i
  | KeyAuth _ (KaCreateOrUpdate i _) => Some i
  | OAuth2 _ (OaCreateOrUpdate i _ _ _ _) => Some i
  | _ => None
  end.

(** The query a [list] call builds, [None] for the other calls. *)
Definition list_query_of (c : call) : option (value * value * dict * dict) :=
  match c with
  | Apis (ApiList s o f) => Some (s, o, f, APIAdminClient.list_query s o f)
  | ApiPlugins _ (PcList s o f) =>
      Some (s, o, f, APIPluginConfigurationAdminClient.list_query s o f)
  | Consumers (CoList s o f) => Some (s, o, f, ConsumerAdminClient.list_query s o f)
  | BasicAuth _ (BaList s o f) => Some (s, o, f, BasicAuthAdminClient.list_query s o f)
  | KeyAuth _ (KaList s o f) => Some (s, o, f, KeyAuthAdminClient.list_query s o f)
  | OAuth2 _ (OaList s o f) => Some (s, o, f, OAuth2AdminClient.list_query s o f)
  | _ => None
  end.

(** The last value a dict literal or a list of keyword arguments gives to a
    key; keyword arguments give one. *)
Definition last_value (k : string) (d : dict) : option value :=
  dict_get k (rev d).

(** A client makes one request after the other: before each it does
    something else for [fst] seconds, and the transport takes [snd]. *)
Fixpoint session_sends `{Runtime} (plan : list (Q * Q))
    (_session : option Session) (tl : Timeline) : option Session * Timeline :=
  match plan with
  | [] => (_session, tl)
  | (gap, latency) :: rest =>
      let (s, tl') := session_send latency _session (idle gap tl) in
      session_sends rest s tl'
  end.

(** The methods that carry a form body. *)
Definition has_body (v : verb) : bool :=
  match v with
  | POST | PUT | PATCH => true
  | GET | DELETE => false
  end.

(** What a method does with its request once it is built. *)
Definition shape_of `{Runtime} (api_url : string) (c : call) (req : Request)
    : Prop :=
  match operation_of c with
  | OpCreate => forall w, run api_url c w = round_trip req expect_created w
  | OpCreateOrUpdate =>
      forall w, run api_url c w = round_trip req expect_created_or_ok w
  | OpUpdate | OpList | OpRetrieve =>
      forall w, run api_url c w
                = (lift (guard_of c) ;;; round_trip req expect_ok) w
  | OpCount =>
      forall w, run api_url c w =
                round_trip req (fun response =>
                                  result <- lift (json response) ;;
                                  amount <- lift (total_or_len result) ;;
                                  ret amount) w
  | OpDelete =>
      exists message, forall w,
        run api_url c w
        = returning_None (on_exception 3 (attempt req message)) w
  end.

(** The world after [k] tries of a [delete], the backend left with [rest]. *)
Definition after_tries (req : Request) (k : nat) (rest : list Response)
    (w : World) : World :=
  {| inbox := rest;
     outbox := (repeat req k ++ outbox w)%list;
     backoffs := backoffs w + Nat.pred k |}.

(** The form body of the request sent last. *)
Definition form_sent {A} (m : M A) (w : World) : option dict :=
  match outbox (snd (m w)) with
  | req :: _ => data req
  | [] => None
  end.

(** How the keyword arguments of a plugin go into the body. *)
Definition prefixed (kv : string * value) : string * value :=
  ("value." ++ fst kv, snd kv).

(** A sleep of the adapter that is longer than 0 and shorter than the
    minimum request interval. *)
Definition short_sleep `{Runtime} (d : Q) : Prop :=
  (0 < d)%Q /\ (d < KONG_MINIMUM_REQUEST_INTERVAL)%Q.

(** The parameters of the three methods that write a plugin configuration:
    Python binds a keyword argument with one of these names to the
    parameter, so it is never among the [**fields]. *)
Definition plugin_parameters (m : plugin_configuration_call) : list string :=
  match m with
  | PcCreateOrUpdate _ _ _ _ _ =>
      ["self"; "plugin_name"; "plugin_configuration_id"; "enabled"; "consumer_id"]
  | _ => ["self"; "plugin_name"; "enabled"; "consumer_id"]
  end.

(** What Python guarantees of [**fields]: every name occurs once and none is
    the name of a parameter. *)
Definition keyword_arguments (m : plugin_configuration_call) (f : dict) : Prop :=
  NoDup (keys f) /\ forall k, In k (keys f) -> ~ In k (plugin_parameters m).

(* ================================================================== *)
(** * Properties *)

(* ------------------------------------------------------------------ *)
(** ** Strings and the URL builder *)

Lemma append_empty_r (s : string) : s ++ "" = s.
Proof. induction s as [|c s IH]; simpl; [reflexivity | now rewrite IH]. Qed.

Lemma rstrip_slash_clean (s : string) : ends_with_slash (rstrip_slash s) = false.
Proof.
  induction s as [|c s IH]; simpl; [reflexivity|].
  destruct (rstrip_slash s) as [|c' s'] eqn:E.
  - destruct (is_slash c) eqn:Ec; simpl; [reflexivity | exact Ec].
  - exact IH.
Qed.

Lemma rstrip_slash_append_slash (s : string) :
  rstrip_slash (s ++ "/") = rstrip_slash s.
Proof.
  induction s as [|c s IH]; simpl; [reflexivity | now rewrite IH].
Qed.

Lemma rstrip_slash_fixed (s : string) :
  ends_with_slash s = false -> rstrip_slash s = s.
Proof.
  induction s as [|c s IH]; simpl; [reflexivity|].
  destruct s as [|c' s'].
  - simpl. now intros ->.
  - intros Hs. rewrite (IH Hs). reflexivity.
Qed.

Lemma ends_with_slash_append (s : string) : ends_with_slash (s ++ "/") = true.
Proof.
  induction s as [|c s IH]; simpl; [reflexivity|].
  destruct (s ++ "/") eqn:E; [destruct s; discriminate | exact IH].
Qed.

Lemma ensure_trailing_slash_single (u : string) :
  single_trailing_slash (ensure_trailing_slash u).
Proof. exists (rstrip_slash u). split; [reflexivity | apply rstrip_slash_clean]. Qed.

Lemma ensure_trailing_slash_idempotent (u : string) :
  ensure_trailing_slash (ensure_trailing_slash u) = ensure_trailing_slash u.
Proof.
  unfold ensure_trailing_slash. rewrite rstrip_slash_append_slash.
  now rewrite (rstrip_slash_fixed _ (rstrip_slash_clean u)).
Qed.

Lemma ensure_trailing_slash_keeps (u : string) :
  single_trailing_slash u -> ensure_trailing_slash u = u.
Proof.
  intros [stem [-> Hstem]]. unfold ensure_trailing_slash.
  now rewrite rstrip_slash_append_slash, rstrip_slash_fixed.
Qed.

Lemma urljoin_empty `{Runtime} (base : string) : urljoin base "" = base.
Proof.
  unfold urljoin. destruct (String.eqb_spec base "") as [->|_]; reflexivity.
Qed.

Lemma get_url_of_base `{Runtime} (base : string) :
  get_url base [] [] = ensure_trailing_slash base.
Proof.
  unfold get_url, add_url_params. simpl String.concat.
  now rewrite urljoin_empty, append_empty_r.
Qed.

Lemma query_string_shape `{Runtime} (params : dict) :
  query_string params = "" \/ exists q, query_string params = "?" ++ q.
Proof.
  unfold query_string.
  destruct (filter _ params); [left | right; eexists]; reflexivity.
Qed.

(** C8 -- the URL built by [get_url] is a path part followed by the query
    string; for every base URL, every sequence of path segments and every
    query the path part ends in exactly one slash, and building again from
    that path part (as base URL, with no further segment) gives it back
    unchanged: no slash is added. *)
Theorem get_url_single_trailing_slash `{Runtime}
    (api_url : string) (path : list string) :
  exists u,
    (forall query_params,
        get_url api_url path query_params = u ++ query_string query_params)
    /\ (forall query_params,
          query_string query_params = ""
          \/ exists q, query_string query_params = "?" ++ q)
    /\ single_trailing_slash u
    /\ get_url u [] [] = u
    /\ ensure_trailing_slash u = u.
Proof.
  exists (ensure_trailing_slash (urljoin api_url (String.concat "/" path))).
  split; [reflexivity|].
  split; [intros q; apply query_string_shape|].
  split; [apply ensure_trailing_slash_single|].
  split.
  - rewrite get_url_of_base. apply ensure_trailing_slash_idempotent.
  - apply ensure_trailing_slash_idempotent.
Qed.

(* ------------------------------------------------------------------ *)
(** ** Round trips *)

Lemma round_trip_answered A (req : Request) (after : Response -> M A)
    (w : World) (r : Response) (rest : list Response) :
  inbox w = r :: rest -> round_trip req after w = after r (sent req rest w).
Proof.
  intros E. unfold round_trip, bind, session_request. now rewrite E.
Qed.

Lemma round_trip_unanswered A (req : Request) (after : Response -> M A)
    (w : World) :
  inbox w = [] -> round_trip req after w = (Raise ConnectionError, sent req [] w).
Proof.
  intros E. unfold round_trip, bind, session_request. now rewrite E.
Qed.

Lemma stateless_eq A (m : M A) (w : World) :
  stateless m -> m w = (fst (m w), w).
Proof. intros Hm. rewrite <- (Hm w) at 3. now destruct (m w). Qed.

Lemma round_trip_single_shot A (req : Request) (after : Response -> M A) :
  (forall r, stateless (after r)) -> single_shot (round_trip req after).
Proof.
  intros Hafter w. destruct (inbox w) as [|r rest] eqn:E.
  - rewrite (round_trip_unanswered _ _ _ E). simpl. split; [reflexivity|].
    right. exists req. split; reflexivity.
  - rewrite (round_trip_answered _ _ _ E).
    pose proof (Hafter r (sent req rest w)) as Hs. rewrite !Hs. simpl.
    split; [reflexivity|]. right. exists req. split; reflexivity.
Qed.

Lemma guarded_single_shot A (g : outcome unit) (m : M A) :
  single_shot m -> single_shot (lift g ;;; m).
Proof.
  intros Hm w. unfold bind, lift. destruct g as [[]|e].
  - apply Hm.
  - simpl. split; [reflexivity | now left].
Qed.

Lemma single_shot_ext A (m m' : M A) :
  (forall w, m w = m' w) -> single_shot m' -> single_shot m.
Proof. intros E Hm w. rewrite E. apply Hm. Qed.

Section Tails.
Context `{Runtime}.

Lemma expect_created_stateless (r : Response) : stateless (expect_created r).
Proof.
  intros w. unfold expect_created, bind, lift, raise, ret.
  destruct (json r); [|reflexivity].
  destruct (status_code r =? CONFLICT)%Z; [reflexivity|].
  destruct (negb _); reflexivity.
Qed.

Lemma expect_created_or_ok_stateless (r : Response) :
  stateless (expect_created_or_ok r).
Proof.
  intros w. unfold expect_created_or_ok, bind, lift, raise, ret.
  destruct (json r); [|reflexivity].
  destruct (status_code r =? CONFLICT)%Z; [reflexivity|].
  destruct (negb _); reflexivity.
Qed.

Lemma expect_ok_stateless (r : Response) : stateless (expect_ok r).
Proof.
  intros w. unfold expect_ok, bind, lift, raise, ret.
  destruct (json r); [|reflexivity].
  destruct (negb _); reflexivity.
Qed.

Lemma expect_gone_stateless (r : Response) (message : string) :
  stateless (expect_gone r message).
Proof.
  intros w. unfold expect_gone, raise, ret. destruct (negb _); reflexivity.
Qed.

Lemma count_tail_stateless (r : Response) :
  stateless (result <- lift (json r) ;;
             amount <- lift (total_or_len result) ;; ret amount).
Proof.
  intros w. unfold bind, lift, ret.
  destruct (json r); [|reflexivity].
  destruct (total_or_len a); reflexivity.
Qed.
End Tails.

(* ------------------------------------------------------------------ *)
(** ** The shape of every method

    A method is a round trip followed by the lines of its operation; [list]
    and [update] check their keyword arguments first, [delete] is wrapped in
    the retry. *)

Ltac each_call c :=
  destruct c as [m|a m|m|a m|a m|a m|m]; destruct m; simpl; try discriminate.

Section Shapes.
Context `{Runtime}.
Variable api_url : string.

Lemma run_create (c : call) :
  operation_of c = OpCreate ->
  exists req, forall w, run api_url c w = round_trip req expect_created w.
Proof. each_call c; intros _; eexists; intros w; reflexivity. Qed.

Lemma run_create_or_update (c : call) :
  operation_of c = OpCreateOrUpdate ->
  exists req, forall w, run api_url c w = round_trip req expect_created_or_ok w.
Proof. each_call c; intros _; eexists; intros w; reflexivity. Qed.

Lemma run_guarded (c : call) :
  operation_of c = OpUpdate \/ operation_of c = OpList
  \/ operation_of c = OpRetrieve ->
  exists req, forall w,
    run api_url c w = (lift (guard_of c) ;;; round_trip req expect_ok) w.
Proof.
  each_call c; intros [E|[E|E]]; try discriminate;
    eexists; intros w; reflexivity.
Qed.

Lemma run_count (c : call) :
  operation_of c = OpCount ->
  exists req, forall w,
    run api_url c w =
    round_trip req (fun response =>
                      result <- lift (json response) ;;
                      amount <- lift (total_or_len result) ;; ret amount) w.
Proof. each_call c; intros _; eexists; intros w; reflexivity. Qed.

Lemma run_delete (c : call) :
  operation_of c = OpDelete ->
  exists req message, forall w,
    run api_url c w = returning_None (on_exception 3 (attempt req message)) w.
Proof. each_call c; intros _; eexists; eexists; intros w; reflexivity. Qed.

Lemma guard_of_unchecked (c : call) :
  checked_fields c = None -> guard_of c = Return tt.
Proof. unfold guard_of. now intros ->. Qed.

Lemma checked_fields_operation (c : call) (f : dict) (whitelist : list string) :
  checked_fields c = Some (f, whitelist) ->
  operation_of c = OpUpdate \/ operation_of c = OpList.
Proof. each_call c; intros _; auto. Qed.
End Shapes.

(* ------------------------------------------------------------------ *)
(** ** Classification of a response *)

Ltac status_cases :=
  repeat match goal with
  | |- context [(?a =? ?b)%Z] => destruct (Z.eqb_spec a b)
  | H : context [(?a =? ?b)%Z] |- _ => destruct (Z.eqb_spec a b)
  end.

Section Classification.
Context `{Runtime}.

Lemma raise_response_error_object (r : Response) (d : dict)
    (exception_class : option (string -> exn)) :
  body r = JsonBody (PyDict d) ->
  raise_response_error r exception_class true =
  match exception_class with
  | Some c => c (flatten d)
  | None => ValueError (flatten d)
  end.
Proof.
  intros E. unfold raise_response_error, json. rewrite E. simpl.
  now destruct exception_class.
Qed.

Lemma raise_response_error_unparsable (r : Response) (text : string)
    (exception_class : option (string -> exn)) :
  body r = RawBody text ->
  raise_response_error r exception_class true = JSONDecodeError.
Proof. intros E. unfold raise_response_error, json. now rewrite E. Qed.

Lemma raise_response_error_not_json (r : Response)
    (exception_class : option (string -> exn)) :
  raise_response_error r exception_class false =
  match exception_class with
  | Some c => c (str_response r)
  | None => ValueError (str_response r)
  end.
Proof. unfold raise_response_error. now destruct exception_class. Qed.

Lemma expect_created_returns (r : Response) (v : value) (w : World) :
  fst (expect_created r w) = Return v <->
  status_code r = CREATED /\ body r = JsonBody v.
Proof.
  unfold expect_created, bind, lift, raise, ret, json.
  destruct (body r) as [v'|text]; simpl.
  - status_cases; simpl; split; try discriminate.
    + intros [E _]. rewrite E in *. discriminate.
    + intros E. injection E as ->. now split.
    + intros [_ E]. now injection E as ->.
    + now intros [E _].
  - split; [discriminate | intros [_ E]; discriminate].
Qed.

Lemma expect_created_conflict (r : Response) (d : dict) (w : World) :
  status_code r = CONFLICT -> body r = JsonBody (PyDict d) ->
  fst (expect_created r w) = Raise (ConflictError (flatten d)).
Proof.
  intros Es Eb. unfold expect_created, bind, lift, raise, ret.
  rewrite (raise_response_error_object _ _ Eb).
  unfold json. rewrite Eb, Es. reflexivity.
Qed.

Lemma expect_created_failure (r : Response) (d : dict) (w : World) :
  status_code r <> CREATED -> status_code r <> CONFLICT ->
  body r = JsonBody (PyDict d) ->
  fst (expect_created r w) = Raise (ValueError (flatten d)).
Proof.
  intros N1 N2 Eb. unfold expect_created, bind, lift, raise, ret.
  rewrite !(raise_response_error_object _ _ Eb).
  unfold json. rewrite Eb. simpl. status_cases; try contradiction. reflexivity.
Qed.

Lemma expect_created_or_ok_returns (r : Response) (v : value) (w : World) :
  fst (expect_created_or_ok r w) = Return v <->
  (status_code r = OK \/ status_code r = CREATED) /\ body r = JsonBody v.
Proof.
  unfold expect_created_or_ok, bind, lift, raise, ret, json.
  destruct (body r) as [v'|text]; simpl.
  - status_cases; simpl; split; try discriminate;
      try (intros E; injection E as ->; now auto);
      try (intros [_ E]; now injection E as ->).
    + intros [[E|E] _]; rewrite E in *; discriminate.
    + intros [[E|E] _]; contradiction.
  - split; [discriminate | intros [_ E]; discriminate].
Qed.

Lemma expect_created_or_ok_conflict (r : Response) (d : dict) (w : World) :
  status_code r = CONFLICT -> body r = JsonBody (PyDict d) ->
  fst (expect_created_or_ok r w) = Raise (ConflictError (flatten d)).
Proof.
  intros Es Eb. unfold expect_created_or_ok, bind, lift, raise, ret.
  rewrite (raise_response_error_object _ _ Eb).
  unfold json. rewrite Eb, Es. reflexivity.
Qed.

Lemma expect_created_or_ok_failure (r : Response) (d : dict) (w : World) :
  status_code r <> CREATED -> status_code r <> OK -> status_code r <> CONFLICT ->
  body r = JsonBody (PyDict d) ->
  fst (expect_created_or_ok r w) = Raise (ValueError (flatten d)).
Proof.
  intros N1 N2 N3 Eb. unfold expect_created_or_ok, bind, lift, raise, ret.
  rewrite !(raise_response_error_object _ _ Eb).
  unfold json. rewrite Eb. simpl. status_cases; try contradiction. reflexivity.
Qed.

Lemma expect_ok_returns (r : Response) (v : value) (w : World) :
  fst (expect_ok r w) = Return v <->
  status_code r = OK /\ body r = JsonBody v.
Proof.
  unfold expect_ok, bind, lift, raise, ret, json.
  destruct (body r) as [v'|text]; simpl.
  - status_cases; simpl; split; try discriminate.
    + intros E. injection E as ->. now split.
    + intros [_ E]. now injection E as ->.
    + now intros [E _].
  - split; [discriminate | intros [_ E]; discriminate].
Qed.

Lemma expect_ok_failure (r : Response) (d : dict) (w : World) :
  status_code r <> OK -> body r = JsonBody (PyDict d) ->
  fst (expect_ok r w) = Raise (ValueError (flatten d)).
Proof.
  intros N Eb. unfold expect_ok, bind, lift, raise, ret.
  rewrite (raise_response_error_object _ _ Eb).
  unfold json. rewrite Eb. simpl. status_cases; try contradiction. reflexivity.
Qed.

Lemma expect_created_unparsable (r : Response) (text : string) (w : World) :
  body r = RawBody text -> fst (expect_created r w) = Raise JSONDecodeError.
Proof. intros E. unfold expect_created, bind, lift, json. now rewrite E. Qed.

Lemma expect_created_or_ok_unparsable (r : Response) (text : string) (w : World) :
  body r = RawBody text -> fst (expect_created_or_ok r w) = Raise JSONDecodeError.
Proof. intros E. unfold expect_created_or_ok, bind, lift, json. now rewrite E. Qed.

Lemma expect_ok_unparsable (r : Response) (text : string) (w : World) :
  body r = RawBody text -> fst (expect_ok r w) = Raise JSONDecodeError.
Proof. intros E. unfold expect_ok, bind, lift, json. now rewrite E. Qed.
End Classification.

Section NonObject.
Context `{Runtime}.

Lemma raise_response_error_non_object (r : Response) (v : value)
    (exception_class : option (string -> exn)) :
  body r = JsonBody v -> (forall d, v <> PyDict d) ->
  raise_response_error r exception_class true = AttributeError "items".
Proof.
  intros Eb Hv. unfold raise_response_error, json. rewrite Eb.
  destruct v; try reflexivity. now destruct (Hv d).
Qed.

Lemma expect_created_non_object (r : Response) (v : value) (w : World) :
  status_code r <> CREATED -> body r = JsonBody v -> (forall d, v <> PyDict d) ->
  fst (expect_created r w) = Raise (AttributeError "items").
Proof.
  intros Hs Eb Hv. unfold expect_created, bind, lift, raise, ret.
  rewrite !(raise_response_error_non_object _ _ Eb Hv).
  unfold json. rewrite Eb. simpl. status_cases; try contradiction; reflexivity.
Qed.

Lemma expect_created_or_ok_non_object (r : Response) (v : value) (w : World) :
  status_code r <> CREATED -> status_code r <> OK ->
  body r = JsonBody v -> (forall d, v <> PyDict d) ->
  fst (expect_created_or_ok r w) = Raise (AttributeError "items").
Proof.
  intros Hs Hs' Eb Hv. unfold expect_created_or_ok, bind, lift, raise, ret.
  rewrite !(raise_response_error_non_object _ _ Eb Hv).
  unfold json. rewrite Eb. simpl. status_cases; try contradiction; reflexivity.
Qed.

Lemma expect_ok_non_object (r : Response) (v : value) (w : World) :
  status_code r <> OK -> body r = JsonBody v -> (forall d, v <> PyDict d) ->
  fst (expect_ok r w) = Raise (AttributeError "items").
Proof.
  intros Hs Eb Hv. unfold expect_ok, bind, lift, raise, ret.
  rewrite !(raise_response_error_non_object _ _ Eb Hv).
  unfold json. rewrite Eb. simpl. status_cases; try contradiction; reflexivity.
Qed.
End NonObject.

(* ------------------------------------------------------------------ *)
(** ** create and create_or_update *)

(** C6, as stated, fails: a basic-auth credential is created and the
    backend answers 409 with a body that is a JSON list, then with a body
    that is not JSON.  The call raises the [AttributeError] of [.items()]
    and the decoding error of [response.json()]: no [ConflictError]. *)
Lemma conflict_needs_an_object_body :
  fst (run (H := default_runtime) "http://kong:8001"
         (BasicAuth "alice" (BaCreate (PyStr "alice") (PyStr "secret")))
         (world [{| status_code := 409;
                    body := JsonBody (PyList [PyStr "username already exists"]) |}]))
  = Raise (AttributeError "items")
  /\ fst (run (H := default_runtime) "http://kong:8001"
            (BasicAuth "alice" (BaCreate (PyStr "alice") (PyStr "secret")))
            (world [{| status_code := 409; body := RawBody "Conflict" |}]))
     = Raise JSONDecodeError
  /\ forall msg,
       fst (run (H := default_runtime) "http://kong:8001"
              (BasicAuth "alice" (BaCreate (PyStr "alice") (PyStr "secret")))
              (world [{| status_code := 409;
                         body := JsonBody (PyList [PyStr "username already exists"]) |}]))
       <> Raise (ConflictError msg).
Proof.
  split; [reflexivity|]. split; [reflexivity|]. intros msg. discriminate.
Qed.

(** C6, amended -- for every client, [create] returns the parsed record
    exactly when the status is 201; when the body is a JSON object, a 409
    raises [ConflictError] and any other status a [ValueError], both
    carrying the flattened body; a body that is not JSON raises the decoding
    error, and a JSON body that is not an object raises, on every status but
    201, the [AttributeError] of [.items()].  [create_or_update] returns the
    parsed record exactly when the status is 200 or 201: a PUT answered with
    200 is a success. *)
Theorem create_status_contract `{Runtime} (api_url : string) (c : call)
    (w : World) (r : Response) (rest : list Response) :
  inbox w = r :: rest ->
  (operation_of c = OpCreate ->
     (forall v, fst (run api_url c w) = Return v <->
                status_code r = CREATED /\ body r = JsonBody v)
     /\ (forall d, status_code r = CONFLICT -> body r = JsonBody (PyDict d) ->
                   fst (run api_url c w) = Raise (ConflictError (flatten d)))
     /\ (forall d, status_code r <> CREATED -> status_code r <> CONFLICT ->
                   body r = JsonBody (PyDict d) ->
                   fst (run api_url c w) = Raise (ValueError (flatten d)))
     /\ (forall text, body r = RawBody text ->
                      fst (run api_url c w) = Raise JSONDecodeError)
     /\ (forall v, status_code r <> CREATED -> body r = JsonBody v ->
                   (forall d, v <> PyDict d) ->
                   fst (run api_url c w) = Raise (AttributeError "items")))
  /\ (operation_of c = OpCreateOrUpdate ->
        forall v, fst (run api_url c w) = Return v <->
                  (status_code r = OK \/ status_code r = CREATED)
                  /\ body r = JsonBody v).
Proof.
  intros E. split; intros Hop.
  - destruct (run_create api_url c Hop) as [req Hrun].
    rewrite Hrun, (round_trip_answered _ _ _ E).
    split; [intros v; apply expect_created_returns|].
    split; [intros d; apply expect_created_conflict|].
    split; [intros d; apply expect_created_failure|].
    split.
    + intros text. apply expect_created_unparsable.
    + intros v. apply expect_created_non_object.
  - destruct (run_create_or_update api_url c Hop) as [req Hrun].
    rewrite Hrun, (round_trip_answered _ _ _ E).
    intros v. apply expect_created_or_ok_returns.
Qed.

Lemma create_status_contract_witness :
  inbox (world [ok [("id", PyStr "7f3a")]]) = [ok [("id", PyStr "7f3a")]]
  /\ fst (run (H := default_runtime) "http://kong:8001"
            (Consumers (CoCreateOrUpdate (PyStr "7f3a") (PyStr "alice") PyNone))
            (world [ok [("id", PyStr "7f3a")]]))
     = Return (PyDict [("id", PyStr "7f3a")])
  /\ fst (run (H := default_runtime) "http://kong:8001"
            (Consumers (CoCreate (PyStr "alice") PyNone)) (world [conflict]))
     = Raise (ConflictError "username: already exists with value 'alice'").
Proof.
  split; [reflexivity|]. split.
  - apply (create_status_contract (H := default_runtime) "http://kong:8001"
             (Consumers (CoCreateOrUpdate (PyStr "7f3a") (PyStr "alice") PyNone))
             (world [ok [("id", PyStr "7f3a")]]) eq_refl).
    + reflexivity.
    + split; [left|]; reflexivity.
  - destruct (create_status_contract (H := default_runtime) "http://kong:8001"
                (Consumers (CoCreate (PyStr "alice") PyNone))
                (world [conflict]) eq_refl) as [Hcreate _].
    destruct (Hcreate eq_refl) as [_ [Hconflict _]].
    exact (Hconflict _ eq_refl eq_refl).
Defined.

(** The idempotence scenarios of the spec: the same consumer is put twice
    and the second PUT is answered with 200; it is posted twice and the
    second POST is answered with 409. *)
Example create_or_update_twice :
  let put := run (H := default_runtime) "http://kong:8001"
               (Consumers (CoCreateOrUpdate (PyStr "7f3a") (PyStr "alice") PyNone)) in
  let (first, w) := put (world [created [("id", PyStr "7f3a")];
                                ok [("id", PyStr "7f3a")]]) in
  first = Return (PyDict [("id", PyStr "7f3a")])
  /\ fst (put w) = Return (PyDict [("id", PyStr "7f3a")]).
Proof. split; reflexivity. Qed.

Example create_twice :
  let post := run (H := default_runtime) "http://kong:8001"
                (Consumers (CoCreate (PyStr "alice") PyNone)) in
  let (first, w) := post (world [created [("id", PyStr "7f3a")]; conflict]) in
  first = Return (PyDict [("id", PyStr "7f3a")])
  /\ fst (post w)
     = Raise (ConflictError "username: already exists with value 'alice'").
Proof. split; reflexivity. Qed.

(* ------------------------------------------------------------------ *)
(** ** delete and the retry *)

Lemma retry_returns A (further : nat) (target : M A) (w w' : World) (a : A) :
  target w = (Return a, w') -> retry further target w = (Return a, w').
Proof. intros E. destruct further; simpl; now rewrite E. Qed.

Lemma retry_again A (further : nat) (target : M A) (w w' : World) (msg : string) :
  target w = (Raise (ValueError msg), w') ->
  retry (S further) target w = retry further target (paused w').
Proof. intros E. simpl. now rewrite E. Qed.

Lemma retry_gives_up A (target : M A) (w w' : World) (e : exn) :
  target w = (Raise e, w') -> retry 0 target w = (Raise e, w').
Proof. intros E. simpl. rewrite E. now destruct (isinstance_ValueError e). Qed.

Lemma retry_passes_on A (further : nat) (target : M A) (w w' : World) (e : exn) :
  target w = (Raise e, w') -> isinstance_ValueError e = false ->
  retry further target w = (Raise e, w').
Proof. intros E He. destruct further; simpl; now rewrite E, He. Qed.

Lemma attempt_gone (req : Request) (message : Response -> string)
    (w : World) (r : Response) (rest : list Response) :
  inbox w = r :: rest -> accepts OpDelete (status_code r) = true ->
  attempt req message w = (Return tt, sent req rest w).
Proof.
  intros E Hs. unfold attempt. rewrite (round_trip_answered _ _ _ E).
  unfold expect_gone. simpl in Hs. now rewrite Hs.
Qed.

Lemma attempt_failed (req : Request) (message : Response -> string)
    (w : World) (r : Response) (rest : list Response) :
  inbox w = r :: rest -> accepts OpDelete (status_code r) = false ->
  attempt req message w = (Raise (ValueError (message r)), sent req rest w).
Proof.
  intros E Hs. unfold attempt. rewrite (round_trip_answered _ _ _ E).
  unfold expect_gone. simpl in Hs. now rewrite Hs.
Qed.

Lemma not_returned A (o : outcome A) :
  (forall a, o <> Return a) -> exists e, o = Raise e.
Proof. destruct o as [a|e]; [intros N; now destruct (N a) | now exists e]. Qed.

Section Retry.
Context `{Runtime}.
Variable api_url : string.

(** A [delete] whose first try is answered with 204 or 404 is done after
    that one request. *)
Lemma delete_gone (c : call) (w : World) (r : Response) (rest : list Response) :
  operation_of c = OpDelete -> inbox w = r :: rest ->
  accepts OpDelete (status_code r) = true ->
  exists req, run api_url c w = (Return PyNone, sent req rest w).
Proof.
  intros Hop E Hs. destruct (run_delete api_url c Hop) as [req [message Hrun]].
  exists req. rewrite Hrun. unfold returning_None, on_exception, bind.
  now rewrite (retry_returns _ _ _ (attempt_gone req message _ E Hs)).
Qed.

Lemma non_delete_single_shot (c : call) :
  operation_of c <> OpDelete -> single_shot (run api_url c).
Proof.
  intros Hop. destruct (operation_of c) eqn:Ec; try contradiction.
  - destruct (run_create api_url c Ec) as [req Hrun].
    apply (single_shot_ext _ Hrun), round_trip_single_shot.
    apply expect_created_stateless.
  - destruct (run_create_or_update api_url c Ec) as [req Hrun].
    apply (single_shot_ext _ Hrun), round_trip_single_shot.
    apply expect_created_or_ok_stateless.
  - destruct (run_guarded api_url c (or_introl Ec)) as [req Hrun].
    apply (single_shot_ext _ Hrun), guarded_single_shot, round_trip_single_shot.
    apply expect_ok_stateless.
  - destruct (run_guarded api_url c (or_intror (or_introl Ec))) as [req Hrun].
    apply (single_shot_ext _ Hrun), guarded_single_shot, round_trip_single_shot.
    apply expect_ok_stateless.
  - destruct (run_guarded api_url c (or_intror (or_intror Ec))) as [req Hrun].
    apply (single_shot_ext _ Hrun), guarded_single_shot, round_trip_single_shot.
    apply expect_ok_stateless.
  - destruct (run_count api_url c Ec) as [req Hrun].
    apply (single_shot_ext _ Hrun), round_trip_single_shot.
    apply count_tail_stateless.
Qed.

Lemma guarded_rejected (c : call) (req : Request) (w : World) (r : Response)
    (rest : list Response) :
  inbox w = r :: rest -> status_code r <> OK ->
  exists e, fst ((lift (guard_of c) ;;; round_trip req expect_ok) w) = Raise e.
Proof.
  intros E Hs. unfold bind, lift. destruct (guard_of c) as [[]|e].
  - rewrite (round_trip_answered _ _ _ E). apply not_returned.
    intros v Hv. apply expect_ok_returns in Hv. now destruct Hv.
  - now exists e.
Qed.

Lemma non_delete_rejected (c : call) (w : World) (r : Response)
    (rest : list Response) :
  operation_of c <> OpDelete -> inbox w = r :: rest ->
  accepts (operation_of c) (status_code r) = false ->
  exists e, fst (run api_url c w) = Raise e.
Proof.
  intros Hop E Hs. destruct (operation_of c) eqn:Ec; try contradiction;
    simpl in Hs; try discriminate.
  - destruct (run_create api_url c Ec) as [req Hrun].
    rewrite Hrun, (round_trip_answered _ _ _ E). apply not_returned.
    intros v Hv. apply expect_created_returns in Hv. destruct Hv as [Hv _].
    rewrite Hv in Hs. discriminate.
  - destruct (run_create_or_update api_url c Ec) as [req Hrun].
    rewrite Hrun, (round_trip_answered _ _ _ E). apply not_returned.
    intros v Hv. apply expect_created_or_ok_returns in Hv.
    destruct Hv as [[Hv|Hv] _]; rewrite Hv in Hs; discriminate.
  - destruct (run_guarded api_url c (or_introl Ec)) as [req Hrun].
    rewrite Hrun. apply (guarded_rejected _ _ _ E).
    intros Hv. rewrite Hv in Hs. discriminate.
  - destruct (run_guarded api_url c (or_intror (or_introl Ec))) as [req Hrun].
    rewrite Hrun. apply (guarded_rejected _ _ _ E).
    intros Hv. rewrite Hv in Hs. discriminate.
  - destruct (run_guarded api_url c (or_intror (or_intror Ec))) as [req Hrun].
    rewrite Hrun. apply (guarded_rejected _ _ _ E).
    intros Hv. rewrite Hv in Hs. discriminate.
Qed.
End Retry.

(* ------------------------------------------------------------------ *)
(** ** The message of a failed delete *)

Lemma starts_with_append (p s : string) : starts_with p (p ++ s) = true.
Proof.
  induction p as [|a p IH]; simpl; [reflexivity|].
  now rewrite Ascii.eqb_refl, IH.
Qed.

Lemma contains_here (needle rest : string) : contains needle (needle ++ rest) = true.
Proof.
  destruct (needle ++ rest) eqn:E; simpl; rewrite <- E, starts_with_append;
    reflexivity.
Qed.

Lemma contains_self (needle : string) : contains needle needle = true.
Proof. rewrite <- (append_empty_r needle) at 2. apply contains_here. Qed.

Lemma contains_later (needle before hay : string) :
  contains needle hay = true -> contains needle (before ++ hay) = true.
Proof.
  intros Hh. induction before as [|a before IH]; simpl; [exact Hh|].
  rewrite IH. apply orb_true_r.
Qed.

Ltac names_it :=
  repeat first [ apply contains_self | apply contains_here | apply contains_later ].

Section DeleteMessage.
Context `{Runtime}.
Variable api_url : string.

(** Every [delete] puts the identifier it was given into its message. *)
Lemma delete_message_names_id (c : call) (i : string) :
  operation_of c = OpDelete -> deleted_id c = Some i ->
  exists req message,
    (forall w, run api_url c w
               = returning_None (on_exception 3 (attempt req message)) w)
    /\ forall r, contains i (message r) = true.
Proof.
  each_call c; intros _ E; injection E as <-; eexists; eexists;
    (split; [intros w; reflexivity | intros r; cbv beta; names_it]).
Qed.

(** The credential clients of a consumer add the consumer. *)
Lemma delete_message_names_consumer (c : call) (p : string) :
  operation_of c = OpDelete -> of_consumer c = true -> parent_id c = Some p ->
  exists req message,
    (forall w, run api_url c w
               = returning_None (on_exception 3 (attempt req message)) w)
    /\ forall r, contains p (message r) = true.
Proof.
  each_call c; intros _ _ E; injection E as <-; eexists; eexists;
    (split; [intros w; reflexivity | intros r; cbv beta; names_it]).
Qed.
End DeleteMessage.

(** After three failures the error of the third try leaves the retry. *)
Lemma three_failed_attempts (req : Request) (message : Response -> string)
    (w : World) (r1 r2 r3 : Response) (rest : list Response) :
  inbox w = r1 :: r2 :: r3 :: rest ->
  accepts OpDelete (status_code r1) = false ->
  accepts OpDelete (status_code r2) = false ->
  accepts OpDelete (status_code r3) = false ->
  fst (on_exception 3 (attempt req message) w) = Raise (ValueError (message r3)).
Proof.
  intros E H1 H2 H3. unfold on_exception. simpl Nat.pred.
  rewrite (retry_again _ _ _ (attempt_failed req message _ E H1)).
  set (w1 := paused (sent req (r2 :: r3 :: rest) w)).
  assert (E1 : inbox w1 = r2 :: r3 :: rest) by reflexivity.
  rewrite (retry_again _ _ _ (attempt_failed req message _ E1 H2)).
  set (w2 := paused (sent req (r3 :: rest) w1)).
  assert (E2 : inbox w2 = r3 :: rest) by reflexivity.
  now rewrite (retry_gives_up _ _ (attempt_failed req message _ E2 H3)).
Qed.

(** The message of a plugin configuration client is made of the status and
    of the plugin configuration: the API the client was built for is not
    part of it. *)
Lemma plugin_configuration_delete_message `{Runtime}
    (api_url api_name_or_id plugin_name_or_id : string)
    (w : World) (r1 r2 r3 : Response) (rest : list Response) :
  inbox w = r1 :: r2 :: r3 :: rest ->
  accepts OpDelete (status_code r1) = false ->
  accepts OpDelete (status_code r2) = false ->
  accepts OpDelete (status_code r3) = false ->
  fst (run api_url (ApiPlugins api_name_or_id (PcDelete plugin_name_or_id)) w)
  = Raise (ValueError ("Could not delete Plugin Configuration (status: "
                         ++ decimal (status_code r3) ++ "): "
                         ++ plugin_name_or_id)).
Proof.
  intros E H1 H2 H3.
  pose proof (three_failed_attempts
    {| method := DELETE;
       url := get_url api_url
                ["apis"; api_name_or_id; "plugins"; plugin_name_or_id] [];
       data := None; headers := get_headers [] |}
    (fun response =>
       "Could not delete Plugin Configuration (status: "
         ++ decimal (status_code response) ++ "): " ++ plugin_name_or_id)
    w E H1 H2 H3) as Hfail.
  change (run api_url (ApiPlugins api_name_or_id (PcDelete plugin_name_or_id)) w)
    with (returning_None
            (on_exception 3
               (attempt
                  {| method := DELETE;
                     url := get_url api_url
                              ["apis"; api_name_or_id; "plugins"; plugin_name_or_id] [];
                     data := None; headers := get_headers [] |}
                  (fun response =>
                     "Could not delete Plugin Configuration (status: "
                       ++ decimal (status_code response) ++ "): "
                       ++ plugin_name_or_id))) w).
  unfold returning_None, bind.
  destruct (on_exception 3 _ w) as [[[]|e] w']; [discriminate Hfail|].
  cbn [fst] in Hfail |- *. injection Hfail as ->. reflexivity.
Qed.

(** C4 -- at the failing input: the plugin configuration [rate-limiting] of
    the API [svc] is deleted and the backend answers 500 three times.  The
    [ValueError] names the plugin configuration but not the API, while the
    same failure on a basic-auth credential names the credential and the
    consumer. *)
Theorem plugin_configuration_delete_omits_api :
  fst (run (H := default_runtime) "http://kong:8001"
         (ApiPlugins "svc" (PcDelete "rate-limiting"))
         (world [server_error; server_error; server_error]))
  = Raise (ValueError
             "Could not delete Plugin Configuration (status: 500): rate-limiting")
  /\ contains "rate-limiting"
       "Could not delete Plugin Configuration (status: 500): rate-limiting" = true
  /\ contains "svc"
       "Could not delete Plugin Configuration (status: 500): rate-limiting" = false
  /\ fst (run (H := default_runtime) "http://kong:8001"
            (BasicAuth "alice" (BaDelete "abc"))
            (world [server_error; server_error; server_error]))
     = Raise (ValueError
                "Could not delete Basic Auth (status: 500): abc for Consumer: alice").
Proof. repeat split; vm_compute; reflexivity. Qed.

(** Deleting what is already gone: the first call is answered with 204, the
    second with 404, and both return [None]. *)
Example delete_twice :
  let delete := run (H := default_runtime) "http://kong:8001"
                  (Apis (ApiDelete "svc")) in
  let (first, w) := delete (world [no_content; not_found]) in
  first = Return PyNone /\ fst (delete w) = Return PyNone
  /\ backoffs (snd (delete w)) = 0.
Proof. repeat split; reflexivity. Qed.

(* ------------------------------------------------------------------ *)
(** ** The whitelist of list and update *)

Lemma mem_In (k : string) (l : list string) : mem k l = true <-> In k l.
Proof.
  unfold mem. rewrite existsb_exists. split.
  - intros [x [Hx E]]. apply String.eqb_eq in E. now subst.
  - intros Hk. exists k. split; [exact Hk | apply String.eqb_refl].
Qed.

Lemma assert_dict_keys_in_passes (d : dict) (allowed : list string) :
  (forall k, In k (keys d) -> In k allowed) ->
  assert_dict_keys_in d allowed = Return tt.
Proof.
  intros Hall. unfold assert_dict_keys_in.
  destruct (find _ (keys d)) as [k|] eqn:E; [|reflexivity].
  apply find_some in E. destruct E as [Hk Hbad].
  apply Hall, mem_In in Hk. rewrite Hk in Hbad. discriminate.
Qed.

Lemma assert_dict_keys_in_fails (d : dict) (allowed : list string) :
  (exists k, In k (keys d) /\ ~ In k allowed) ->
  exists k, In k (keys d) /\ ~ In k allowed
            /\ assert_dict_keys_in d allowed = Raise (ValidationError k).
Proof.
  intros [k [Hk Hbad]]. unfold assert_dict_keys_in.
  destruct (find _ (keys d)) as [k'|] eqn:E.
  - apply find_some in E. destruct E as [Hk' Hbad'].
    exists k'. split; [exact Hk'|]. split; [|reflexivity].
    intros Hin. apply mem_In in Hin. rewrite Hin in Hbad'. discriminate.
  - exfalso. apply (find_none _ _ E) in Hk.
    apply negb_false_iff, mem_In in Hk. contradiction.
Qed.

(** Every [list] and [update] has a whitelist, but for [update] of a plugin
    configuration, whose fields are the configuration of the plugin, and
    [list] of the plugins, which takes no arguments. *)
Lemma unchecked_calls (c : call) :
  operation_of c = OpUpdate \/ operation_of c = OpList ->
  checked_fields c = None ->
  (exists a n e p f, c = ApiPlugins a (PcUpdate n e p f)) \/ c = Plugins PlList.
Proof.
  each_call c; intros [E|E]; try discriminate; intros N; try discriminate.
  - left. now repeat eexists.
  - now right.
Qed.

(** C5 -- a [list] or [update] call whose keyword arguments hold a key
    outside the whitelist of its resource raises the validation error and
    leaves the world untouched: no request is sent.  When every key is in
    the whitelist the call goes on to its one request. *)
Theorem whitelist_checked_before_any_request `{Runtime} (api_url : string)
    (c : call) (f : dict) (whitelist : list string) (w : World) :
  checked_fields c = Some (f, whitelist) ->
  ((exists k, In k (keys f) /\ ~ In k whitelist) ->
     exists k, In k (keys f) /\ ~ In k whitelist
               /\ run api_url c w = (Raise (ValidationError k), w))
  /\ ((forall k, In k (keys f) -> In k whitelist) ->
        exists req, run api_url c w = round_trip req expect_ok w
                    /\ outbox (snd (run api_url c w)) = req :: outbox w).
Proof.
  intros Hc.
  destruct (run_guarded api_url c) as [req Hrun].
  { destruct (checked_fields_operation c Hc); auto. }
  unfold guard_of in Hrun. rewrite Hc in Hrun. split.
  - intros Hbad. destruct (assert_dict_keys_in_fails _ _ Hbad) as [k [Hk [Hn E]]].
    exists k. split; [exact Hk|]. split; [exact Hn|].
    rewrite Hrun. unfold bind, lift. now rewrite E.
  - intros Hall. exists req.
    assert (E : run api_url c w = round_trip req expect_ok w).
    { rewrite Hrun. unfold bind, lift.
      now rewrite (assert_dict_keys_in_passes _ _ Hall). }
    split; [exact E|]. rewrite E.
    destruct (inbox w) as [|r rest] eqn:Ei.
    + now rewrite (round_trip_unanswered _ _ _ Ei).
    + rewrite (round_trip_answered _ _ _ Ei).
      now rewrite (expect_ok_stateless r (sent req rest w)).
Qed.

Lemma whitelist_checked_before_any_request_witness :
  (exists k, In k (keys [("colour", PyStr "red")])
             /\ ~ In k ["id"; "name"; "public_dns"; "path"])
  /\ exists k,
       run (H := default_runtime) "http://kong:8001"
         (Apis (ApiList (PyInt 100) PyNone [("colour", PyStr "red")]))
         (world [ok []])
       = (Raise (ValidationError k), world [ok []]).
Proof.
  assert (Hbad : exists k, In k (keys [("colour", PyStr "red")])
                           /\ ~ In k ["id"; "name"; "public_dns"; "path"]).
  { exists "colour". split; [now left|].
    intros [E|[E|[E|[E|[]]]]]; discriminate. }
  split; [exact Hbad|].
  destruct (whitelist_checked_before_any_request (H := default_runtime)
              "http://kong:8001"
              (Apis (ApiList (PyInt 100) PyNone [("colour", PyStr "red")]))
              (world [ok []]) eq_refl) as [Hfast _].
  destruct (Hfast Hbad) as [k [_ [_ E]]]. now exists k.
Defined.

(* ------------------------------------------------------------------ *)
(** ** count *)

Section Count.
Context `{Runtime}.
Variable api_url : string.

Lemma count_answered (c : call) (w : World) (r : Response) (rest : list Response) :
  operation_of c = OpCount -> inbox w = r :: rest ->
  fst (run api_url c w) =
  match json r with
  | Return result => total_or_len result
  | Raise e => Raise e
  end.
Proof.
  intros Hop E. destruct (run_count api_url c Hop) as [req Hrun].
  rewrite Hrun, (round_trip_answered _ _ _ E). unfold bind, lift, ret.
  destruct (json r) as [result|e]; [|reflexivity].
  destruct (total_or_len result); reflexivity.
Qed.
End Count.

(** C7 -- at the failing input: the APIs are counted and the body of the
    response is [{"total": 3}], the total without a page.  The length of the
    missing page is computed first, as the default of [get], and [count]
    raises the [TypeError] of [len(None)] instead of returning 3. *)
Lemma count_total_without_data :
  dict_get "total" [("total", PyInt 3)] = Some (PyInt 3)
  /\ fst (run (H := default_runtime) "http://kong:8001" (Apis ApiCount)
            (world [ok [("total", PyInt 3)]]))
     = Raise (TypeError "object of type 'NoneType' has no len()")
  /\ fst (run (H := default_runtime) "http://kong:8001" (Apis ApiCount)
            (world [ok [("total", PyInt 3)]]))
     <> Return (PyInt 3).
Proof.
  split; [reflexivity|]. split; [reflexivity | discriminate].
Qed.

(** When the body of the response is a JSON object whose ["data"] entry is
    there and has a length, [count] of every client returns the value of
    ["total"] when it is present and the length of the page otherwise. *)
Theorem count_total_or_page_length `{Runtime} (api_url : string) (c : call)
    (w : World) (r : Response) (rest : list Response)
    (d : dict) (page : value) (n : nat) :
  operation_of c = OpCount -> inbox w = r :: rest ->
  body r = JsonBody (PyDict d) ->
  dict_get "data" d = Some page -> py_len page = Return n ->
  fst (run api_url c w) =
  Return (match dict_get "total" d with
          | Some total => total
          | None => PyInt (Z.of_nat n)
          end).
Proof.
  intros Hop E Eb Ed En. rewrite (count_answered api_url c w Hop E).
  unfold json. rewrite Eb. unfold total_or_len, py_get. now rewrite Ed, En.
Qed.

Lemma count_total_or_page_length_witness :
  fst (run (H := default_runtime) "http://kong:8001" (Consumers CoCount)
         (world [ok [("data", PyList [PyDict [("id", PyStr "7f3a")]; PyDict []])]]))
  = Return (PyInt 2)
  /\ fst (run (H := default_runtime) "http://kong:8001" (Consumers CoCount)
            (world [ok [("total", PyInt 41); ("data", PyList [PyDict []])]]))
     = Return (PyInt 41).
Proof.
  split.
  - exact (count_total_or_page_length (H := default_runtime) "http://kong:8001"
             (Consumers CoCount)
             (world [ok [("data", PyList [PyDict [("id", PyStr "7f3a")]; PyDict []])]])
             (d := [("data", PyList [PyDict [("id", PyStr "7f3a")]; PyDict []])])
             (n := 2) eq_refl eq_refl eq_refl eq_refl eq_refl).
  - exact (count_total_or_page_length (H := default_runtime) "http://kong:8001"
             (Consumers CoCount)
             (world [ok [("total", PyInt 41); ("data", PyList [PyDict []])]])
             (d := [("total", PyInt 41); ("data", PyList [PyDict []])])
             (n := 1) eq_refl eq_refl eq_refl eq_refl eq_refl).
Defined.

(** A body that is not an object, or not JSON at all, makes [count] raise. *)
Lemma count_needs_an_object `{Runtime} (api_url : string) (c : call)
    (w : World) (r : Response) (rest : list Response) :
  operation_of c = OpCount -> inbox w = r :: rest ->
  (forall d, body r <> JsonBody (PyDict d)) ->
  exists e, fst (run api_url c w) = Raise e.
Proof.
  intros Hop E Hb. rewrite (count_answered api_url c w Hop E). unfold json.
  destruct (body r) as [[| | | | |d]|text]; try (now eexists).
  now destruct (Hb d).
Qed.

(** C10 -- when the body of the response has no ["data"] key, [count] of
    every client raises; when the body is a JSON object the error is the
    [TypeError] of [len(None)], whatever else the object holds, ["total"]
    included: the length of the page is computed before ["total"] is looked
    up. *)
Theorem count_without_data_raises `{Runtime} (api_url : string) (c : call)
    (w : World) (r : Response) (rest : list Response) :
  operation_of c = OpCount -> inbox w = r :: rest ->
  (forall d, body r = JsonBody (PyDict d) -> dict_get "data" d = None) ->
  (exists e, fst (run api_url c w) = Raise e)
  /\ (forall d, body r = JsonBody (PyDict d) ->
        fst (run api_url c w)
        = Raise (TypeError "object of type 'NoneType' has no len()")).
Proof.
  intros Hop E Hd.
  assert (Hobject : forall d, body r = JsonBody (PyDict d) ->
            fst (run api_url c w)
            = Raise (TypeError "object of type 'NoneType' has no len()")).
  { intros d Eb. rewrite (count_answered api_url c w Hop E).
    unfold json. rewrite Eb. unfold total_or_len, py_get.
    now rewrite (Hd d Eb). }
  split; [|exact Hobject].
  destruct (body r) as [[| | | | |d]|text] eqn:Eb;
    try (apply (count_needs_an_object api_url c w Hop E);
         intros d; rewrite Eb; discriminate).
  exists (TypeError "object of type 'NoneType' has no len()").
  now apply (Hobject d).
Qed.

Lemma count_without_data_raises_witness :
  dict_get "total" [("total", PyInt 12)] = Some (PyInt 12)
  /\ fst (run (H := default_runtime) "http://kong:8001"
            (BasicAuth "alice" BaCount) (world [ok [("total", PyInt 12)]]))
     = Raise (TypeError "object of type 'NoneType' has no len()").
Proof.
  split; [reflexivity|].
  assert (Hd : forall d, body (ok [("total", PyInt 12)]) = JsonBody (PyDict d) ->
                         dict_get "data" d = None).
  { intros d E. injection E as <-. reflexivity. }
  destruct (count_without_data_raises (H := default_runtime) "http://kong:8001"
              (BasicAuth "alice" BaCount) (world [ok [("total", PyInt 12)]])
              eq_refl eq_refl Hd) as [_ Hobject].
  exact (Hobject _ eq_refl).
Defined.

(* ------------------------------------------------------------------ *)
(** ** Which operations are retried *)

(** C3, as stated, fails for [count]: the APIs are counted and the backend
    answers 500, a status [list] on the same URL rejects, with a body that
    holds a page of two records.  No error is raised: the call returns 2. *)
Lemma count_returns_on_a_failure_status :
  accepts OpList 500 = false
  /\ run (H := default_runtime) "http://kong:8001" (Apis ApiCount)
       (world [{| status_code := 500;
                  body := JsonBody (PyDict [("message", PyStr "An unexpected error occurred");
                                            ("data", PyList [PyDict []; PyDict []])]) |}])
     = (Return (PyInt 2),
        {| inbox := [];
           outbox := [{| method := GET; url := "http://kong:8001/apis/";
                         data := None; headers := [] |}];
           backoffs := 0 |}).
Proof. split; reflexivity. Qed.

(** C3, amended -- a [delete] answered with a failure status (neither 204
    nor 404) twice and then with 204 returns [None] after three requests and
    two pauses; answered with a failure status three times it raises the
    [ValueError] of the third try.  Every other operation, [count] included,
    sends at most one request and never pauses.  [create],
    [create_or_update], [update], [list] and [retrieve] raise at once when
    the status of the response is not one they accept; [count] does not look
    at the status: a body that is an object with a page is counted whatever
    the status of the response. *)
Theorem delete_is_the_only_retried_operation `{Runtime} (api_url : string)
    (c : call) (w : World) :
  (operation_of c = OpDelete ->
     forall r1 r2 r3 rest,
       inbox w = r1 :: r2 :: r3 :: rest ->
       accepts OpDelete (status_code r1) = false ->
       accepts OpDelete (status_code r2) = false ->
       exists req,
         inbox (snd (run api_url c w)) = rest
         /\ outbox (snd (run api_url c w)) = req :: req :: req :: outbox w
         /\ backoffs (snd (run api_url c w)) = 2 + backoffs w
         /\ (status_code r3 = NO_CONTENT ->
             fst (run api_url c w) = Return PyNone)
         /\ (accepts OpDelete (status_code r3) = false ->
             exists msg, fst (run api_url c w) = Raise (ValueError msg)))
  /\ (operation_of c <> OpDelete -> single_shot (run api_url c))
  /\ (operation_of c <> OpDelete -> operation_of c <> OpCount ->
        forall r rest,
          inbox w = r :: rest ->
          accepts (operation_of c) (status_code r) = false ->
          exists e, fst (run api_url c w) = Raise e)
  /\ (operation_of c = OpCount ->
        forall r rest d page n,
          inbox w = r :: rest ->
          body r = JsonBody (PyDict d) ->
          dict_get "data" d = Some page -> py_len page = Return n ->
          fst (run api_url c w)
          = Return (match dict_get "total" d with
                    | Some total => total
                    | None => PyInt (Z.of_nat n)
                    end)).
Proof.
  split; [|split; [|split]].
  - intros Hop r1 r2 r3 rest E H1 H2.
    destruct (run_delete api_url c Hop) as [req [message Hrun]].
    exists req. rewrite Hrun. unfold returning_None, on_exception, bind.
    simpl Nat.pred.
    rewrite (retry_again _ _ _ (attempt_failed req message _ E H1)).
    set (w1 := paused (sent req (r2 :: r3 :: rest) w)).
    assert (E1 : inbox w1 = r2 :: r3 :: rest) by reflexivity.
    rewrite (retry_again _ _ _ (attempt_failed req message _ E1 H2)).
    set (w2 := paused (sent req (r3 :: rest) w1)).
    assert (E2 : inbox w2 = r3 :: rest) by reflexivity.
    destruct (accepts OpDelete (status_code r3)) eqn:H3.
    + rewrite (retry_returns _ _ _ (attempt_gone req message _ E2 H3)).
      simpl. repeat split; try reflexivity. intros N. discriminate.
    + rewrite (retry_gives_up _ _ (attempt_failed req message _ E2 H3)).
      simpl. repeat split; try reflexivity.
      * intros N. simpl in H3. rewrite N in H3. discriminate.
      * intros _. now eexists.
  - intros Hop. now apply non_delete_single_shot.
  - intros Hop _ r rest. now apply non_delete_rejected.
  - intros Hop r rest d page n E Eb Ed En.
    rewrite (count_answered api_url c w Hop E).
    unfold json. rewrite Eb. unfold total_or_len, py_get. now rewrite Ed, En.
Qed.

Lemma delete_is_the_only_retried_operation_witness :
  fst (run (H := default_runtime) "http://kong:8001" (Apis (ApiDelete "svc"))
         (world [server_error; server_error; no_content])) = Return PyNone
  /\ single_shot (run (H := default_runtime) "http://kong:8001"
                    (Apis (ApiRetrieve "svc")))
  /\ (exists e,
        fst (run (H := default_runtime) "http://kong:8001"
               (Apis (ApiRetrieve "svc")) (world [not_found])) = Raise e)
  /\ fst (run (H := default_runtime) "http://kong:8001" (Consumers CoCount)
            (world [{| status_code := 503;
                       body := JsonBody (PyDict [("data", PyList [PyNone])]) |}]))
     = Return (PyInt 1).
Proof.
  split; [|split; [|split]].
  - destruct (delete_is_the_only_retried_operation (H := default_runtime)
                "http://kong:8001" (Apis (ApiDelete "svc"))
                (world [server_error; server_error; no_content])) as [Hd _].
    destruct (Hd eq_refl server_error server_error no_content [] eq_refl
                eq_refl eq_refl) as [req [_ [_ [_ [Hgone _]]]]].
    exact (Hgone eq_refl).
  - destruct (delete_is_the_only_retried_operation (H := default_runtime)
                "http://kong:8001" (Apis (ApiRetrieve "svc")) (world []))
      as [_ [Hother _]].
    apply Hother. discriminate.
  - destruct (delete_is_the_only_retried_operation (H := default_runtime)
                "http://kong:8001" (Apis (ApiRetrieve "svc")) (world [not_found]))
      as [_ [_ [Hraise _]]].
    apply (Hraise ltac:(discriminate) ltac:(discriminate) not_found [] eq_refl
             eq_refl).
  - destruct (delete_is_the_only_retried_operation (H := default_runtime)
                "http://kong:8001" (Consumers CoCount)
                (world [{| status_code := 503;
                           body := JsonBody (PyDict [("data", PyList [PyNone])]) |}]))
      as [_ [_ [_ Hcount]]].
    exact (Hcount eq_refl _ [] [("data", PyList [PyNone])] (PyList [PyNone]) 1
             eq_refl eq_refl eq_refl eq_refl).
Defined.

(* ------------------------------------------------------------------ *)
(** ** The message of a typed error *)

Example flatten_payload :
  flatten (H := default_runtime)
    [("username", PyStr "already exists"); ("tries", PyInt 3); ("fatal", PyBool false)]
  = "username: already exists, tries: 3, fatal: False".
Proof. reflexivity. Qed.

(** C2, as stated, fails: a consumer is created, the answer is a 409 (and,
    in the second run, a 502) whose body is an HTML page.  The call raises
    the decoding error of [response.json()]; no [ConflictError] and no
    error carrying the text of the response is raised. *)
Lemma unparsable_body_fails_the_call :
  let page := "<html><body>Bad Gateway</body></html>" in
  let create := run (H := default_runtime) "http://kong:8001"
                  (Consumers (CoCreate (PyStr "alice") PyNone)) in
  fst (create (world [bad_gateway 409])) = Raise JSONDecodeError
  /\ fst (create (world [bad_gateway 409])) <> Raise (ConflictError page)
  /\ fst (create (world [bad_gateway 502])) = Raise JSONDecodeError
  /\ fst (create (world [bad_gateway 502])) <> Raise (ValueError page)
  /\ raise_response_error (H := default_runtime) (bad_gateway 409)
       (Some ConflictError) true = JSONDecodeError.
Proof.
  cbv zeta. split; [reflexivity|]. split; [discriminate|].
  split; [reflexivity|]. split; [discriminate | reflexivity].
Qed.

(** C2, amended -- [create], [create_or_update], [update], [list],
    [retrieve] and [retrieve_schema] got past the whitelist and the status
    of the response is not one the operation accepts.  When the body is a
    JSON object the error raised is a [ConflictError] for a 409 answered to
    [create] or [create_or_update] and a [ValueError] otherwise, and its
    message is the "key: value" join of the fields of the body.  When the
    body is not JSON the call raises the decoding error of
    [response.json()]; the branch of [raise_response_error] for a body that
    is not JSON is taken by no client and would give [str(response)]. *)
Theorem error_message_is_flattened_body `{Runtime} (api_url : string)
    (c : call) (w : World) (r : Response) (rest : list Response) :
  inbox w = r :: rest -> guard_of c = Return tt ->
  operation_of c <> OpCount -> operation_of c <> OpDelete ->
  accepts (operation_of c) (status_code r) = false ->
  (forall d, body r = JsonBody (PyDict d) ->
     fst (run api_url c w)
     = Raise (error_class (operation_of c) (status_code r) (flatten d)))
  /\ (forall text, body r = RawBody text ->
        fst (run api_url c w) = Raise JSONDecodeError)
  /\ (forall exception_class,
        raise_response_error r (Some exception_class) false
        = exception_class (str_response r)).
Proof.
  intros E Hg N1 N2 Hs.
  split; [|split; [|intros cls; reflexivity]].
  - intros d Eb.
    destruct (operation_of c) eqn:Ec; try contradiction; simpl in Hs |- *.
    + destruct (run_create api_url c Ec) as [req Hrun].
      rewrite Hrun, (round_trip_answered _ _ _ E).
      destruct (Z.eqb_spec (status_code r) CONFLICT) as [Ek|Nk].
      * now apply expect_created_conflict.
      * apply expect_created_failure; try assumption.
        intros Ek. rewrite Ek in Hs. discriminate.
    + destruct (run_create_or_update api_url c Ec) as [req Hrun].
      rewrite Hrun, (round_trip_answered _ _ _ E).
      apply orb_false_iff in Hs. destruct Hs as [Hs1 Hs2].
      destruct (Z.eqb_spec (status_code r) CONFLICT) as [Ek|Nk].
      * now apply expect_created_or_ok_conflict.
      * apply expect_created_or_ok_failure; try assumption;
          intros Ek; rewrite Ek in *; discriminate.
    + destruct (run_guarded api_url c (or_introl Ec)) as [req Hrun].
      rewrite Hrun, Hg. unfold bind, lift.
      rewrite (round_trip_answered _ _ _ E).
      apply expect_ok_failure; try assumption.
      intros Ek. rewrite Ek in Hs. discriminate.
    + destruct (run_guarded api_url c (or_intror (or_introl Ec))) as [req Hrun].
      rewrite Hrun, Hg. unfold bind, lift.
      rewrite (round_trip_answered _ _ _ E).
      apply expect_ok_failure; try assumption.
      intros Ek. rewrite Ek in Hs. discriminate.
    + destruct (run_guarded api_url c (or_intror (or_intror Ec))) as [req Hrun].
      rewrite Hrun, Hg. unfold bind, lift.
      rewrite (round_trip_answered _ _ _ E).
      apply expect_ok_failure; try assumption.
      intros Ek. rewrite Ek in Hs. discriminate.
  - intros text Eb.
    destruct (operation_of c) eqn:Ec; try contradiction.
    + destruct (run_create api_url c Ec) as [req Hrun].
      rewrite Hrun, (round_trip_answered _ _ _ E).
      now apply expect_created_unparsable with text.
    + destruct (run_create_or_update api_url c Ec) as [req Hrun].
      rewrite Hrun, (round_trip_answered _ _ _ E).
      now apply expect_created_or_ok_unparsable with text.
    + destruct (run_guarded api_url c (or_introl Ec)) as [req Hrun].
      rewrite Hrun, Hg. unfold bind, lift.
      rewrite (round_trip_answered _ _ _ E).
      now apply expect_ok_unparsable with text.
    + destruct (run_guarded api_url c (or_intror (or_introl Ec))) as [req Hrun].
      rewrite Hrun, Hg. unfold bind, lift.
      rewrite (round_trip_answered _ _ _ E).
      now apply expect_ok_unparsable with text.
    + destruct (run_guarded api_url c (or_intror (or_intror Ec))) as [req Hrun].
      rewrite Hrun, Hg. unfold bind, lift.
      rewrite (round_trip_answered _ _ _ E).
      now apply expect_ok_unparsable with text.
Qed.

Lemma error_message_is_flattened_body_witness :
  fst (run (H := default_runtime) "http://kong:8001"
         (Consumers (CoCreate (PyStr "alice") PyNone)) (world [conflict]))
  = Raise (ConflictError "username: already exists with value 'alice'")
  /\ fst (run (H := default_runtime) "http://kong:8001"
            (Apis (ApiRetrieve "svc")) (world [not_found]))
     = Raise (ValueError "message: Not found").
Proof.
  split.
  - destruct (error_message_is_flattened_body (H := default_runtime)
                "http://kong:8001" (Consumers (CoCreate (PyStr "alice") PyNone))
                (world [conflict]) eq_refl eq_refl
                ltac:(discriminate) ltac:(discriminate) eq_refl) as [Hobject _].
    exact (Hobject _ eq_refl).
  - destruct (error_message_is_flattened_body (H := default_runtime)
                "http://kong:8001" (Apis (ApiRetrieve "svc"))
                (world [not_found]) eq_refl eq_refl
                ltac:(discriminate) ltac:(discriminate) eq_refl) as [Hobject _].
    exact (Hobject _ eq_refl).
Defined.

(* ------------------------------------------------------------------ *)
(** ** The offset of list *)

Lemma dict_get_set (k : string) (v : value) (d : dict) :
  dict_get k (dict_set k v d) = Some v.
Proof.
  induction d as [|[k' v'] d IH]; simpl.
  - now rewrite String.eqb_refl.
  - destruct (String.eqb_spec k k') as [->|N]; simpl.
    + now rewrite String.eqb_refl.
    + destruct (String.eqb_spec k k'); [contradiction | exact IH].
Qed.

(** [list] of a plugin configuration client passes on every offset that is
    not [None]. *)
Lemma plugin_configuration_list_offset (size offset : value) (f : dict) :
  is_not_None offset = true ->
  dict_get "offset" (APIPluginConfigurationAdminClient.list_query size offset f)
  = Some offset.
Proof.
  intros Ho. unfold APIPluginConfigurationAdminClient.list_query.
  rewrite Ho. apply dict_get_set.
Qed.

(** [list] of the other clients passes on the offsets that are true. *)
Lemma list_offset_when_true (size offset : value) (f : dict) :
  truthy offset = true ->
  dict_get "offset" (APIAdminClient.list_query size offset f) = Some offset
  /\ dict_get "offset" (ConsumerAdminClient.list_query size offset f) = Some offset
  /\ dict_get "offset" (BasicAuthAdminClient.list_query size offset f) = Some offset
  /\ dict_get "offset" (KeyAuthAdminClient.list_query size offset f) = Some offset
  /\ dict_get "offset" (OAuth2AdminClient.list_query size offset f) = Some offset.
Proof.
  intros Ho.
  unfold APIAdminClient.list_query, ConsumerAdminClient.list_query,
    BasicAuthAdminClient.list_query, KeyAuthAdminClient.list_query,
    OAuth2AdminClient.list_query.
  rewrite Ho. repeat split; apply dict_get_set.
Qed.

Lemma list_offset_when_false (size offset : value) (f : dict) :
  truthy offset = false ->
  APIAdminClient.list_query size offset f = dict_set "size" size f
  /\ ConsumerAdminClient.list_query size offset f = dict_set "size" size f
  /\ BasicAuthAdminClient.list_query size offset f = dict_set "size" size f
  /\ KeyAuthAdminClient.list_query size offset f = dict_set "size" size f
  /\ OAuth2AdminClient.list_query size offset f = dict_set "size" size f.
Proof.
  intros Ho.
  unfold APIAdminClient.list_query, ConsumerAdminClient.list_query,
    BasicAuthAdminClient.list_query, KeyAuthAdminClient.list_query,
    OAuth2AdminClient.list_query.
  rewrite Ho. repeat split.
Qed.

(** C9 -- at the failing input: the APIs are listed with [offset=0].  The
    offset is not [None], yet the query holds the size alone and the URL
    that is requested has no offset; the same call on the plugin
    configurations of an API sends [offset=0]. *)
Theorem api_list_drops_zero_offset :
  is_not_None (PyInt 0) = true
  /\ APIAdminClient.list_query (PyInt 100) (PyInt 0) [] = [("size", PyInt 100)]
  /\ map url (outbox (snd (run (H := default_runtime) "http://kong:8001"
                             (Apis (ApiList (PyInt 100) (PyInt 0) []))
                             (world [ok []]))))
     = ["http://kong:8001/apis/?size=100"]
  /\ APIPluginConfigurationAdminClient.list_query (PyInt 100) (PyInt 0) []
     = [("size", PyInt 100); ("offset", PyInt 0)]
  /\ map url (outbox (snd (run (H := default_runtime) "http://kong:8001"
                             (ApiPlugins "svc" (PcList (PyInt 100) (PyInt 0) []))
                             (world [ok []]))))
     = ["http://kong:8001/apis/svc/plugins/?size=100&offset=0"].
Proof. repeat split. Qed.

(* ------------------------------------------------------------------ *)
(** ** The throttling adapter *)

Lemma Qltb_lt (x y : Q) : Qltb x y = true <-> (x < y)%Q.
Proof. unfold Qltb, Qlt. apply Z.ltb_lt. Qed.

(** When the adapter throttles, it sleeps for the time that has passed since
    the last request. *)
Lemma send_sleeps_elapsed `{Runtime} (latency last : Q)
    (self : ThrottlingHTTPAdapter.t) (tl : Timeline) :
  ThrottlingHTTPAdapter._last_request self = Some last ->
  (0 < KONG_MINIMUM_REQUEST_INTERVAL)%Q ->
  (0 < now tl - last)%Q -> (now tl - last < KONG_MINIMUM_REQUEST_INTERVAL)%Q ->
  slept (snd (ThrottlingHTTPAdapter.send latency self tl))
  = (now tl - last)%Q :: slept tl
  /\ started (snd (ThrottlingHTTPAdapter.send latency self tl))
     = (now tl + (now tl - last))%Q :: started tl.
Proof.
  intros El HT H0 H1. unfold ThrottlingHTTPAdapter.send. rewrite El.
  apply Qltb_lt in HT, H0, H1. rewrite HT, H0, H1. split; reflexivity.
Qed.

(** Two requests on a session that is reused, the second called [gap]
    seconds after the first came back, [gap] below the interval: the second
    goes out [latency1 + 2 * gap] after the first. *)
Lemma throttled_gap (interval t0 latency1 gap latency2 : Q) :
  (0 < interval)%Q -> (0 < gap)%Q -> (gap < interval)%Q ->
  exists d s2,
    slept (two_requests (H := runtime interval true) t0 latency1 gap latency2) = [d]
    /\ (d == gap)%Q
    /\ started (two_requests (H := runtime interval true) t0 latency1 gap latency2)
       = [s2; t0]
    /\ (s2 - t0 == latency1 + 2 * gap)%Q.
Proof.
  intros HT H0 H1.
  assert (HT' := proj2 (Qltb_lt 0 interval) HT).
  set (diff := (t0 + latency1 + gap - (t0 + latency1))%Q).
  assert (Hd : (diff == gap)%Q) by (unfold diff; ring).
  assert (H0' : Qltb 0 diff = true) by (apply Qltb_lt; rewrite Hd; exact H0).
  assert (H1' : Qltb diff interval = true) by (apply Qltb_lt; rewrite Hd; exact H1).
  exists diff, (t0 + latency1 + gap + diff)%Q.
  unfold two_requests, session_send, session, new_session,
    ThrottlingHTTPAdapter.send, ThrottlingHTTPAdapter.__init__,
    HTTPAdapter_send, idle, time_sleep.
  cbn [KONG_MINIMUM_REQUEST_INTERVAL KONG_REUSE_CONNECTIONS runtime].
  rewrite HT'.
  cbn [adapter ThrottlingHTTPAdapter._last_request now slept started snd fst negb].
  fold diff. rewrite H0', H1'.
  cbn [andb now slept started snd].
  repeat split; [exact Hd | rewrite Hd; ring].
Qed.

(** C1 -- at the failing input: the interval is 10 seconds and connections
    are reused; the first request goes out at 0 and is back at 1, the second
    is called 2 seconds later.  The adapter sleeps 2 seconds, the time that
    has passed, where the rest of the interval is 8, and the second request
    goes out at 5: less than 10 seconds after the first. *)
Theorem throttle_sleeps_elapsed_time :
  slept (two_requests (H := runtime 10 true) 0 1 2 1) = [2%Q]
  /\ (10 - 2 == 8)%Q
  /\ started (two_requests (H := runtime 10 true) 0 1 2 1) = [5%Q; 0%Q]
  /\ (5 - 0 < 10)%Q.
Proof.
  split; [reflexivity|]. split; [reflexivity|].
  split; [reflexivity|]. reflexivity.
Qed.

(** With connections not reused every request gets a new session and a new
    adapter, which has no last request: nothing is slept. *)
Example no_throttle_without_reuse :
  slept (two_requests (H := runtime 10 false) 0 1 2 1) = []
  /\ started (two_requests (H := runtime 10 false) 0 1 2 1) = [3%Q; 0%Q].
Proof. split; reflexivity. Qed.

(* ================================================================== *)
(** * Further properties *)

(* ------------------------------------------------------------------ *)
(** ** Dictionaries *)

Lemma dict_get_set_other (k k' : string) (v : value) (d : dict) :
  k <> k' -> dict_get k (dict_set k' v d) = dict_get k d.
Proof.
  intros N. induction d as [|[k0 v0] d IH]; simpl.
  - destruct (String.eqb_spec k k'); [contradiction | reflexivity].
  - destruct (String.eqb_spec k' k0) as [->|N0]; simpl.
    + destruct (String.eqb_spec k k0); [contradiction | reflexivity].
    + destruct (String.eqb_spec k k0); [reflexivity | exact IH].
Qed.

Lemma dict_get_set_any (k k' : string) (v : value) (d : dict) :
  dict_get k (dict_set k' v d) = if k =? k' then Some v else dict_get k d.
Proof.
  destruct (String.eqb_spec k k') as [->|N].
  - apply dict_get_set.
  - now apply dict_get_set_other.
Qed.

Lemma dict_get_app (k : string) (d e : dict) :
  dict_get k (d ++ e)%list =
  match dict_get k d with Some v => Some v | None => dict_get k e end.
Proof.
  induction d as [|[k0 v0] d IH]; simpl; [reflexivity|].
  destruct (k =? k0); [reflexivity | exact IH].
Qed.

(** After [d.update(e)] a key has the last value [e] gives it, and the
    value it had in [d] when [e] gives none. *)
Lemma dict_get_update (k : string) (d e : dict) :
  dict_get k (dict_update d e) =
  match last_value k e with Some v => Some v | None => dict_get k d end.
Proof.
  unfold dict_update, last_value. revert d.
  induction e as [|[k0 v0] e IH]; intros d; simpl; [reflexivity|].
  rewrite IH, dict_get_app, dict_get_set_any. simpl.
  destruct (dict_get k (rev e)); [reflexivity|].
  destruct (k =? k0); reflexivity.
Qed.

Lemma dict_get_None (k : string) (d : dict) :
  dict_get k d = None <-> ~ In k (keys d).
Proof.
  induction d as [|[k0 v0] d IH]; simpl; [tauto|].
  destruct (String.eqb_spec k k0) as [->|N].
  - split; [discriminate | intros H; exfalso; apply H; now left].
  - rewrite IH. split; [intros H [E|E]; [now subst | auto] | auto].
Qed.

Lemma last_value_None (k : string) (d : dict) :
  last_value k d = None <-> ~ In k (keys d).
Proof.
  unfold last_value. rewrite dict_get_None. unfold keys.
  rewrite map_rev. now rewrite <- in_rev.
Qed.

Lemma keys_dict_set (k k' : string) (v : value) (d : dict) :
  In k (keys (dict_set k' v d)) <-> k = k' \/ In k (keys d).
Proof.
  induction d as [|[k0 v0] d IH]; simpl.
  - intuition.
  - destruct (String.eqb_spec k' k0) as [->|N]; simpl; [intuition|].
    rewrite IH. intuition.
Qed.

Lemma NoDup_keys_dict_set (k : string) (v : value) (d : dict) :
  NoDup (keys d) -> NoDup (keys (dict_set k v d)).
Proof.
  induction d as [|[k0 v0] d IH]; simpl; intros Hd.
  - constructor; [intros [] | constructor].
  - inversion Hd as [|? ? Hn Hd']; subst.
    destruct (String.eqb_spec k k0) as [->|N]; simpl.
    + now constructor.
    + constructor; [|now apply IH].
      rewrite keys_dict_set. intros [E|E]; [now subst | contradiction].
Qed.

Lemma NoDup_keys_dict_update (d e : dict) :
  NoDup (keys d) -> NoDup (keys (dict_update d e)).
Proof.
  unfold dict_update. revert d.
  induction e as [|[k v] e IH]; intros d Hd; simpl; [exact Hd|].
  apply IH. now apply NoDup_keys_dict_set.
Qed.

(** Where every key occurs once, the last value of a key is its value. *)
Lemma last_value_NoDup (k : string) (d : dict) :
  NoDup (keys d) -> last_value k d = dict_get k d.
Proof.
  unfold last_value. induction d as [|[k0 v0] d IH]; simpl; intros Hd;
    [reflexivity|].
  inversion Hd as [|? ? Hn Hd']; subst.
  rewrite dict_get_app, (IH Hd'). simpl.
  destruct (String.eqb_spec k k0) as [->|N].
  - apply dict_get_None in Hn. now rewrite Hn.
  - now destruct (dict_get k d).
Qed.

(* ------------------------------------------------------------------ *)
(** ** The requests of a call *)

Lemma get_headers_default `{Runtime} :
  get_headers [] =
  if KONG_REUSE_CONNECTIONS then [] else [("Connection", PyStr "close")].
Proof.
  unfold get_headers, get_default_kong_headers.
  now destruct KONG_REUSE_CONNECTIONS.
Qed.

Lemma run_shape `{Runtime} (api_url : string) (c : call) :
  exists req,
    shape_of api_url c req
    /\ method req = verb_of (operation_of c)
    /\ headers req = get_headers []
    /\ (exists tail params,
          url req = get_url api_url (base_path c ++ tail)%list params)
    /\ (if has_body (method req) then exists d, data req = Some d
        else data req = None).
Proof.
  destruct c as [m|a m|m|a m|a m|a m|m]; destruct m;
    (eexists; split;
     [ unfold shape_of; simpl operation_of; cbv iota; try eexists;
       intros w; reflexivity
     | split; [reflexivity|]; split; [reflexivity|]; split;
       [ eexists; eexists; simpl base_path; simpl app; reflexivity
       | simpl; try eexists; reflexivity ] ]).
Qed.

Lemma round_trip_world A (req : Request) (after : Response -> M A) (w : World) :
  (forall r, stateless (after r)) ->
  snd (round_trip req after w) = sent req (tl (inbox w)) w.
Proof.
  intros Hafter. destruct (inbox w) as [|r rest] eqn:E.
  - now rewrite (round_trip_unanswered _ _ _ E).
  - rewrite (round_trip_answered _ _ _ E). apply Hafter.
Qed.

Lemma attempt_unanswered (req : Request) (message : Response -> string)
    (w : World) :
  inbox w = [] -> attempt req message w = (Raise ConnectionError, sent req [] w).
Proof. intros E. unfold attempt. now rewrite (round_trip_unanswered _ _ _ E). Qed.

Lemma repeat_app_cons A (x : A) (n : nat) (l : list A) :
  (repeat x n ++ x :: l = x :: repeat x n ++ l)%list.
Proof. induction n as [|n IH]; simpl; [reflexivity | now rewrite IH]. Qed.

(** The retry sends the same request [n] times, takes [n] responses and
    pauses between two requests. *)
Lemma retry_world (req : Request) (message : Response -> string) (further : nat) :
  forall w, exists n,
    1 <= n <= S further
    /\ outbox (snd (retry further (attempt req message) w))
       = (repeat req n ++ outbox w)%list
    /\ inbox (snd (retry further (attempt req message) w)) = skipn n (inbox w)
    /\ backoffs (snd (retry further (attempt req message) w))
       = backoffs w + Nat.pred n.
Proof.
  induction further as [|further IH]; intros w.
  - exists 1. split; [lia|].
    destruct (inbox w) as [|r rest] eqn:E.
    + rewrite (retry_gives_up _ _ (attempt_unanswered req message _ E)).
      simpl. repeat split; lia.
    + destruct (accepts OpDelete (status_code r)) eqn:Hs.
      * rewrite (retry_returns _ _ _ (attempt_gone req message _ E Hs)).
        simpl. repeat split; lia.
      * rewrite (retry_gives_up _ _ (attempt_failed req message _ E Hs)).
        simpl. repeat split; lia.
  - destruct (inbox w) as [|r rest] eqn:E.
    + exists 1. split; [lia|].
      rewrite (retry_passes_on _ _ _ (attempt_unanswered req message _ E) eq_refl).
      simpl. repeat split; lia.
    + destruct (accepts OpDelete (status_code r)) eqn:Hs.
      * exists 1. split; [lia|].
        rewrite (retry_returns _ _ _ (attempt_gone req message _ E Hs)).
        simpl. repeat split; lia.
      * rewrite (retry_again _ _ _ (attempt_failed req message _ E Hs)).
        destruct (IH (paused (sent req rest w))) as [n [Hn [Ho [Hi Hb]]]].
        exists (S n). split; [lia|]. rewrite Ho, Hi, Hb. simpl.
        rewrite repeat_app_cons. repeat split. lia.
Qed.

Lemma guard_raises (c : call) (e : exn) :
  guard_of c = Raise e -> exists k, e = ValidationError k.
Proof.
  unfold guard_of. destruct (checked_fields c) as [[f whitelist]|]; [|discriminate].
  unfold assert_dict_keys_in. destruct (find _ (keys f)) as [k|]; [|discriminate].
  intros E. injection E as <-. now exists k.
Qed.

(** Everything a call does to the world. *)
Lemma run_requests `{Runtime} (api_url : string) (c : call) (w : World) :
  exists req n,
    (method req = verb_of (operation_of c)
     /\ headers req = get_headers []
     /\ (exists tail params,
           url req = get_url api_url (base_path c ++ tail)%list params)
     /\ (if has_body (method req) then exists d, data req = Some d
         else data req = None))
    /\ outbox (snd (run api_url c w)) = (repeat req n ++ outbox w)%list
    /\ inbox (snd (run api_url c w)) = skipn n (inbox w)
    /\ backoffs (snd (run api_url c w)) = backoffs w + Nat.pred n
    /\ (operation_of c = OpDelete -> 1 <= n <= 3)
    /\ (operation_of c <> OpDelete -> n <= 1)
    /\ (n = 0 -> exists k, fst (run api_url c w) = Raise (ValidationError k)).
Proof.
  destruct (run_shape api_url c) as [req [Hshape Hform]].
  exists req. unfold shape_of in Hshape.
  assert (Hone : forall A (after : Response -> M A),
            (forall r, stateless (after r)) ->
            outbox (snd (round_trip req after w)) = (repeat req 1 ++ outbox w)%list
            /\ inbox (snd (round_trip req after w)) = skipn 1 (inbox w)
            /\ backoffs (snd (round_trip req after w)) = backoffs w + Nat.pred 1).
  { intros A after Hafter. rewrite (round_trip_world _ _ _ Hafter). simpl.
    repeat split. lia. }
  assert (Hguarded : (forall w, run api_url c w
                        = (lift (guard_of c) ;;; round_trip req expect_ok) w) ->
            operation_of c <> OpDelete ->
            exists n,
              outbox (snd (run api_url c w)) = (repeat req n ++ outbox w)%list
              /\ inbox (snd (run api_url c w)) = skipn n (inbox w)
              /\ backoffs (snd (run api_url c w)) = backoffs w + Nat.pred n
              /\ (operation_of c = OpDelete -> 1 <= n <= 3)
              /\ (operation_of c <> OpDelete -> n <= 1)
              /\ (n = 0 -> exists k, fst (run api_url c w) = Raise (ValidationError k))).
  { intros Hrun Hop. rewrite Hrun. unfold bind, lift.
    destruct (guard_of c) as [[]|e] eqn:Hg.
    - exists 1. destruct (Hone _ expect_ok expect_ok_stateless) as [Ho [Hi Hb]].
      repeat split; try assumption; try lia; try contradiction.
    - exists 0. destruct (guard_raises c Hg) as [k ->]. simpl.
      repeat split; try lia; try contradiction. intros _. now exists k. }
  destruct (operation_of c) eqn:Hop.
  - exists 1. split; [exact Hform|]. rewrite Hshape.
    destruct (Hone _ expect_created expect_created_stateless) as [Ho [Hi Hb]].
    repeat split; try assumption; try lia; discriminate.
  - exists 1. split; [exact Hform|]. rewrite Hshape.
    destruct (Hone _ expect_created_or_ok expect_created_or_ok_stateless)
      as [Ho [Hi Hb]].
    repeat split; try assumption; try lia; discriminate.
  - destruct (Hguarded Hshape ltac:(discriminate)) as [n Hn]. now exists n.
  - destruct (Hguarded Hshape ltac:(discriminate)) as [n Hn]. now exists n.
  - destruct (Hguarded Hshape ltac:(discriminate)) as [n Hn]. now exists n.
  - exists 1. split; [exact Hform|]. rewrite Hshape.
    destruct (Hone _ _ count_tail_stateless) as [Ho [Hi Hb]].
    repeat split; try assumption; try lia; discriminate.
  - destruct Hshape as [message Hrun].
    destruct (retry_world req message 2 w) as [n [Hn [Ho [Hi Hb]]]].
    exists n. split; [exact Hform|]. rewrite Hrun.
    unfold returning_None, on_exception, bind. simpl Nat.pred.
    destruct (retry 2 (attempt req message) w) as [[[]|e] w'] eqn:Er;
      simpl in Ho, Hi, Hb |- *;
      (repeat split; try assumption; try lia; try contradiction).
Qed.

(** X1 -- [get_headers]: a header passed to the call wins over the header
    of the client; the client's own headers are [Connection: close] when
    connections are not reused and none otherwise. *)
Theorem get_headers_lookup `{Runtime} (extra : dict) (k : string) :
  dict_get k (get_headers extra) =
  match last_value k extra with
  | Some v => Some v
  | None =>
      if KONG_REUSE_CONNECTIONS then None
      else if k =? "Connection" then Some (PyStr "close") else None
  end.
Proof.
  unfold get_headers. rewrite dict_get_update.
  destruct (last_value k extra); [reflexivity|].
  rewrite dict_get_update. unfold get_default_kong_headers.
  destruct KONG_REUSE_CONNECTIONS; simpl; [reflexivity|].
  unfold last_value. simpl. now destruct (k =? "Connection").
Qed.

(** X2 -- every request a call sends has the method of the operation (POST
    to create, PUT to create or update, PATCH to update, DELETE to delete,
    GET otherwise), a form body exactly when the method is POST, PUT or
    PATCH, a URL built from the path of the client's collection, and the
    headers of the client: [Connection: close] when connections are not
    reused, none otherwise. *)
Theorem request_form `{Runtime} (api_url : string) (c : call) (w : World) :
  exists req n,
    outbox (snd (run api_url c w)) = (repeat req n ++ outbox w)%list
    /\ method req = verb_of (operation_of c)
    /\ headers req = (if KONG_REUSE_CONNECTIONS then []
                      else [("Connection", PyStr "close")])
    /\ (exists tail params,
          url req = get_url api_url (base_path c ++ tail)%list params)
    /\ (if has_body (verb_of (operation_of c))
        then exists d, data req = Some d
        else data req = None).
Proof.
  destruct (run_requests api_url c w)
    as [req [n [[Hm [Hh [Hu Hd]]] [Ho _]]]].
  exists req, n. rewrite <- get_headers_default, <- Hm. auto.
Qed.


(* ------------------------------------------------------------------ *)
(** ** The outcome of a delete *)

Lemma retry_failures (req : Request) (message : Response -> string)
    (failures : list Response) :
  forall (further : nat) (w : World) (rest : list Response),
    inbox w = (failures ++ rest)%list ->
    Forall (fun r => accepts OpDelete (status_code r) = false) failures ->
    length failures <= further ->
    retry further (attempt req message) w
    = retry (further - length failures) (attempt req message)
        {| inbox := rest;
           outbox := (repeat req (length failures) ++ outbox w)%list;
           backoffs := backoffs w + length failures |}.
Proof.
  induction failures as [|r failures IH]; intros further w rest E Hf Hl.
  - destruct w as [i o b]. simpl in *. subst i.
    now rewrite Nat.sub_0_r, Nat.add_0_r.
  - inversion Hf as [|? ? Hr Hf']; subst.
    destruct further as [|further]; [simpl in Hl; lia|]. cbn [app] in E.
    rewrite (retry_again _ _ _ (attempt_failed req message _ E Hr)).
    rewrite (IH further (paused (sent req (failures ++ rest)%list w)) rest
               eq_refl Hf' ltac:(simpl in Hl; lia)).
    simpl. rewrite repeat_app_cons. repeat f_equal. lia.
Qed.

(** X4 -- a [delete] whose first [k] tries ([k] at most 2) are answered
    with a status other than 204 and 404 goes on to try [k + 1]: when that
    one is answered with 204 or 404 the call returns [None], and when the
    transport gives no response its error leaves the call at once; either
    way [k + 1] requests were sent and [k] pauses taken. *)
Theorem delete_outcome `{Runtime} (api_url : string) (c : call) (w : World)
    (failures rest : list Response) :
  operation_of c = OpDelete ->
  inbox w = (failures ++ rest)%list ->
  Forall (fun r => accepts OpDelete (status_code r) = false) failures ->
  length failures <= 2 ->
  exists req,
    (rest = [] ->
       run api_url c w
       = (Raise ConnectionError, after_tries req (S (length failures)) [] w))
    /\ (forall r rest',
          rest = r :: rest' -> accepts OpDelete (status_code r) = true ->
          run api_url c w
          = (Return PyNone, after_tries req (S (length failures)) rest' w)).
Proof.
  intros Hop E Hf Hl. destruct (run_delete api_url c Hop) as [req [message Hrun]].
  exists req. split.
  - intros ->. rewrite Hrun. unfold returning_None, on_exception, bind.
    simpl Nat.pred. rewrite (@retry_failures req message failures 2 w _ E Hf Hl).
    match goal with |- context [retry _ _ ?wk] =>
      assert (Ek : inbox wk = []) by reflexivity;
      rewrite (retry_passes_on _ _ _ (attempt_unanswered req message wk Ek) eq_refl)
    end.
    reflexivity.
  - intros r rest' -> Hr. rewrite Hrun. unfold returning_None, on_exception, bind.
    simpl Nat.pred. rewrite (@retry_failures req message failures 2 w _ E Hf Hl).
    match goal with |- context [retry _ _ ?wk] =>
      assert (Ek : inbox wk = r :: rest') by reflexivity;
      rewrite (retry_returns _ _ _ (attempt_gone req message wk Ek Hr))
    end.
    reflexivity.
Qed.

Lemma delete_outcome_witness :
  let out := run (H := default_runtime) "http://kong:8001"
               (Consumers (CoDelete "alice"))
               (world [server_error; not_found; ok []]) in
  fst out = Return PyNone
  /\ inbox (snd out) = [ok []]
  /\ length (outbox (snd out)) = 2
  /\ backoffs (snd out) = 1.
Proof.
  destruct (delete_outcome (H := default_runtime) "http://kong:8001"
              (Consumers (CoDelete "alice"))
              (world [server_error; not_found; ok []])
              (failures := [server_error]) [not_found; ok []] eq_refl eq_refl)
    as [req [_ Hgone]].
  - repeat constructor.
  - simpl. lia.
  - cbv zeta. rewrite (Hgone not_found [ok []] eq_refl eq_refl).
    repeat split.
Defined.

(* ------------------------------------------------------------------ *)
(** ** update, list, retrieve and count *)

(** X5 -- [update], [list], [retrieve] and [retrieve_schema] of every
    client, once the keyword arguments pass the whitelist, return the
    decoded body exactly when the status is 200: a 201, a 204 and a 404 make
    them raise. *)
Theorem read_status_contract `{Runtime} (api_url : string) (c : call)
    (w : World) (r : Response) (rest : list Response) :
  operation_of c = OpUpdate \/ operation_of c = OpList
  \/ operation_of c = OpRetrieve ->
  guard_of c = Return tt ->
  inbox w = r :: rest ->
  forall v, fst (run api_url c w) = Return v <->
            status_code r = OK /\ body r = JsonBody v.
Proof.
  intros Hop Hg E v. destruct (run_guarded api_url c Hop) as [req Hrun].
  rewrite Hrun, Hg. unfold bind, lift. rewrite (round_trip_answered _ _ _ E).
  apply expect_ok_returns.
Qed.

Lemma read_status_contract_witness :
  (fst (run (H := default_runtime) "http://kong:8001"
          (BasicAuth "alice" (BaRetrieve "abc"))
          (world [ok [("id", PyStr "abc")]]))
   = Return (PyDict [("id", PyStr "abc")]))
  /\ forall v, fst (run (H := default_runtime) "http://kong:8001"
                      (BasicAuth "alice" (BaRetrieve "abc")) (world [not_found]))
               <> Return v.
Proof.
  split.
  - apply (read_status_contract (H := default_runtime) "http://kong:8001"
             (BasicAuth "alice" (BaRetrieve "abc"))
             (world [ok [("id", PyStr "abc")]])
             (or_intror (or_intror eq_refl)) eq_refl eq_refl).
    split; reflexivity.
  - intros v Hv.
    apply (read_status_contract (H := default_runtime) "http://kong:8001"
             (BasicAuth "alice" (BaRetrieve "abc")) (world [not_found])
             (or_intror (or_intror eq_refl)) eq_refl eq_refl) in Hv.
    destruct Hv as [Hs _]. discriminate Hs.
Defined.

(** X6 -- [count] never looks at the status: two responses with the same
    body give the same result, whatever their status codes. *)
Theorem count_ignores_status `{Runtime} (api_url : string) (c : call)
    (w w' : World) (r r' : Response) (rest rest' : list Response) :
  operation_of c = OpCount ->
  inbox w = r :: rest -> inbox w' = r' :: rest' ->
  body r = body r' ->
  fst (run api_url c w) = fst (run api_url c w').
Proof.
  intros Hop E E' Eb.
  rewrite (count_answered api_url c w Hop E), (count_answered api_url c w' Hop E').
  unfold json. now rewrite Eb.
Qed.

Lemma count_ignores_status_witness :
  fst (run (H := default_runtime) "http://kong:8001" (Apis ApiCount)
         (world [{| status_code := 500;
                    body := JsonBody (PyDict [("data", PyList [PyNone; PyNone])]) |}]))
  = fst (run (H := default_runtime) "http://kong:8001" (Apis ApiCount)
           (world [ok [("data", PyList [PyNone; PyNone])]])).
Proof.
  apply (count_ignores_status (H := default_runtime) "http://kong:8001"
           (Apis ApiCount)
           (world [{| status_code := 500;
                      body := JsonBody (PyDict [("data", PyList [PyNone; PyNone])]) |}])
           (world [ok [("data", PyList [PyNone; PyNone])]])
           eq_refl eq_refl eq_refl eq_refl).
Defined.

(** X7 -- when the status of a response is not one the operation accepts
    and the body is JSON but not an object (a list, a string, a number,
    null), the call raises the [AttributeError] of [.items()]: neither the
    [ConflictError] nor the [ValueError] of the classification.  [count]
    raises the [AttributeError] of [.get()] on such a body whatever the
    status. *)
Theorem non_object_body_raises_attribute_error `{Runtime} (api_url : string)
    (c : call) (w : World) (r : Response) (rest : list Response) (v : value) :
  inbox w = r :: rest -> guard_of c = Return tt ->
  operation_of c <> OpDelete ->
  accepts (operation_of c) (status_code r) = false
  \/ operation_of c = OpCount ->
  body r = JsonBody v -> (forall d, v <> PyDict d) ->
  exists attribute, fst (run api_url c w) = Raise (AttributeError attribute).
Proof.
  intros E Hg N Hs Eb Hv.
  destruct (operation_of c) eqn:Ec; try contradiction.
  - destruct Hs as [Hs|Hs]; [|discriminate]. simpl in Hs.
    destruct (run_create api_url c Ec) as [req Hrun].
    rewrite Hrun, (round_trip_answered _ _ _ E). exists "items".
    apply expect_created_non_object with v; try assumption.
    intros Ek. rewrite Ek in Hs. discriminate.
  - destruct Hs as [Hs|Hs]; [|discriminate]. simpl in Hs.
    apply orb_false_iff in Hs. destruct Hs as [Hs1 Hs2].
    destruct (run_create_or_update api_url c Ec) as [req Hrun].
    rewrite Hrun, (round_trip_answered _ _ _ E). exists "items".
    apply expect_created_or_ok_non_object with v; try assumption;
      intros Ek; rewrite Ek in *; discriminate.
  - destruct Hs as [Hs|Hs]; [|discriminate]. simpl in Hs.
    destruct (run_guarded api_url c (or_introl Ec)) as [req Hrun].
    rewrite Hrun, Hg. unfold bind, lift. rewrite (round_trip_answered _ _ _ E).
    exists "items". apply expect_ok_non_object with v; try assumption.
    intros Ek. rewrite Ek in Hs. discriminate.
  - destruct Hs as [Hs|Hs]; [|discriminate]. simpl in Hs.
    destruct (run_guarded api_url c (or_intror (or_introl Ec))) as [req Hrun].
    rewrite Hrun, Hg. unfold bind, lift. rewrite (round_trip_answered _ _ _ E).
    exists "items". apply expect_ok_non_object with v; try assumption.
    intros Ek. rewrite Ek in Hs. discriminate.
  - destruct Hs as [Hs|Hs]; [|discriminate]. simpl in Hs.
    destruct (run_guarded api_url c (or_intror (or_intror Ec))) as [req Hrun].
    rewrite Hrun, Hg. unfold bind, lift. rewrite (round_trip_answered _ _ _ E).
    exists "items". apply expect_ok_non_object with v; try assumption.
    intros Ek. rewrite Ek in Hs. discriminate.
  - rewrite (count_answered api_url c w Ec E). unfold json. rewrite Eb.
    exists "get". destruct v; try reflexivity. now destruct (Hv d).
Qed.

Lemma non_object_body_raises_attribute_error_witness :
  exists attribute,
    fst (run (H := default_runtime) "http://kong:8001"
           (Consumers (CoCreate (PyStr "alice") PyNone))
           (world [{| status_code := 409;
                      body := JsonBody (PyList [PyStr "already exists"]) |}]))
    = Raise (AttributeError attribute).
Proof.
  apply (non_object_body_raises_attribute_error (H := default_runtime)
           "http://kong:8001" (Consumers (CoCreate (PyStr "alice") PyNone))
           (world [{| status_code := 409;
                      body := JsonBody (PyList [PyStr "already exists"]) |}])
           (v := PyList [PyStr "already exists"]) eq_refl eq_refl);
    [discriminate | now left | reflexivity | discriminate].
Defined.

(* ------------------------------------------------------------------ *)
(** ** The form bodies *)

Lemma form_sent_round_trip A (m : M A) (req : Request)
    (after : Response -> M A) (d : dict) (w : World) :
  (forall w, m w = round_trip req after w) ->
  (forall r, stateless (after r)) ->
  data req = Some d ->
  form_sent m w = Some d.
Proof.
  intros Hm Hafter Hd. unfold form_sent.
  now rewrite Hm, (round_trip_world _ _ _ Hafter).
Qed.

Lemma form_sent_guarded A (m : M A) (g : outcome unit) (req : Request)
    (after : Response -> M A) (d : dict) (w : World) :
  (forall w, m w = (lift g ;;; round_trip req after) w) ->
  g = Return tt ->
  (forall r, stateless (after r)) ->
  data req = Some d ->
  form_sent m w = Some d.
Proof.
  intros Hm -> Hafter Hd. unfold form_sent.
  rewrite Hm. unfold bind, lift. now rewrite (round_trip_world _ _ _ Hafter).
Qed.

Lemma lookup_with_enabled (k : string) (e : value) (d : dict) :
  dict_get k (with_enabled e d) =
  if (k =? "enabled") && isinstance_bool e then Some e else dict_get k d.
Proof.
  unfold with_enabled. destruct e; simpl; rewrite ?andb_false_r; try reflexivity.
  rewrite dict_get_set_any, andb_true_r. reflexivity.
Qed.

Lemma lookup_with_present (k key : string) (x : value) (d : dict) :
  dict_get k (with_present key x d) =
  if (k =? key) && is_not_None x then Some x else dict_get k d.
Proof.
  unfold with_present. destruct (is_not_None x).
  - now rewrite dict_get_set_any, andb_true_r.
  - now rewrite andb_false_r.
Qed.

Lemma prefix_values_update (f : dict) :
  prefix_values f = dict_update [] (map prefixed f).
Proof.
  unfold prefix_values, dict_update. generalize (@nil (string * value)).
  induction f as [|kv f IH]; intros acc; simpl; [reflexivity | apply IH].
Qed.

Lemma dict_get_prefixed (k : string) (f : dict) :
  dict_get ("value." ++ k) (map prefixed f) = dict_get k f.
Proof.
  induction f as [|[k0 v0] f IH]; [reflexivity|].
  cbn [map prefixed fst snd dict_get]. rewrite IH.
  change ("value." ++ k =? "value." ++ k0) with (k =? k0). reflexivity.
Qed.

Lemma last_value_prefixed (k : string) (f : dict) :
  last_value ("value." ++ k) (map prefixed f) = last_value k f.
Proof. unfold last_value. rewrite <- map_rev. apply dict_get_prefixed. Qed.

Lemma last_value_unprefixed (k : string) (f : dict) :
  starts_with "value." k = false -> last_value k (map prefixed f) = None.
Proof.
  intros Hk. apply last_value_None. unfold keys. rewrite map_map.
  intros Hin. apply in_map_iff in Hin. destruct Hin as [[k0 v0] [E _]].
  simpl in E. subst k. simpl in Hk. discriminate.
Qed.

Lemma NoDup_keys_prefix_values (f : dict) : NoDup (keys (prefix_values f)).
Proof.
  rewrite prefix_values_update. apply NoDup_keys_dict_update. constructor.
Qed.

(** In the values of a plugin a key [value.k] has the last value given to
    [k], and no other key is there. *)
Lemma last_value_prefix_values (k : string) (f : dict) :
  last_value k (prefix_values f) = last_value k (map prefixed f).
Proof.
  rewrite (@last_value_NoDup k _ (NoDup_keys_prefix_values f)).
  rewrite prefix_values_update, dict_get_update. simpl.
  now destruct (last_value k (map prefixed f)).
Qed.

Lemma last_value_keys (k : string) (v : value) (d : dict) :
  last_value k d = Some v -> In k (keys d).
Proof.
  intros E. destruct (in_dec string_dec k (keys d)) as [Hin|Hn]; [exact Hin|].
  apply last_value_None in Hn. rewrite Hn in E. discriminate.
Qed.

Lemma keys_dict_update (k : string) (d e : dict) :
  In k (keys (dict_update d e)) -> In k (keys d) \/ In k (keys e).
Proof.
  unfold dict_update. revert d.
  induction e as [|[k0 v0] e IH]; intros d; simpl; [now left|].
  intros Hin. destruct (IH _ Hin) as [Hd|He]; [|now right; right].
  apply keys_dict_set in Hd. destruct Hd as [->|Hd]; [right; now left | now left].
Qed.

Lemma keys_prefix_values (k : string) (f : dict) :
  In k (keys (prefix_values f)) ->
  exists k', k = "value." ++ k' /\ In k' (keys f).
Proof.
  rewrite prefix_values_update. intros Hin.
  apply keys_dict_update in Hin. destruct Hin as [[]|Hin].
  unfold keys in Hin. rewrite map_map in Hin. apply in_map_iff in Hin.
  destruct Hin as [[k0 v0] [E Hin]]. exists k0. split; [now rewrite <- E|].
  apply in_map_iff. now exists (k0, v0).
Qed.

Lemma keys_with_enabled (k : string) (e : value) (d : dict) :
  In k (keys (with_enabled e d)) -> k = "enabled" \/ In k (keys d).
Proof.
  unfold with_enabled. destruct (_ && _); [apply keys_dict_set | now right].
Qed.

Lemma keys_with_present (k key : string) (x : value) (d : dict) :
  In k (keys (with_present key x d)) -> k = key \/ In k (keys d).
Proof.
  unfold with_present. destruct (is_not_None x); [apply keys_dict_set | now right].
Qed.

(** The body of a plugin configuration before the optional keys go in. *)
Lemma lookup_plugin_data (k : string) (base f : dict) :
  dict_get k (dict_update base (prefix_values f)) =
  match last_value k (map prefixed f) with
  | Some v => Some v
  | None => dict_get k base
  end.
Proof. now rewrite dict_get_update, last_value_prefix_values. Qed.

Lemma plugin_data_keys (k : string) (base f : dict) :
  In k (keys (dict_update base (prefix_values f))) ->
  In k (keys base) \/ exists k', k = "value." ++ k' /\ In k' (keys f).
Proof.
  intros Hin. apply keys_dict_update in Hin.
  destruct Hin as [Hin|Hin]; [now left | right; now apply keys_prefix_values].
Qed.

Ltac plugin_form_sent :=
  first
    [ eapply form_sent_round_trip;
      [ intros ?; reflexivity
      | first [ apply expect_created_stateless
              | apply expect_created_or_ok_stateless
              | apply expect_ok_stateless ]
      | reflexivity ] ].

(** X8 -- [create], [create_or_update] and [update] of a plugin
    configuration send the name of the plugin under ["name"] and every
    further keyword argument [k], one that is not a parameter of the method,
    under ["value.k"].  The keys ["name"], ["consumer_id"], ["enabled"] and
    ["id"] come from the parameters alone, whatever the further keyword
    arguments are: one called [name] or [id] goes out as ["value.name"] or
    ["value.id"].  The body holds no other key. *)
Theorem plugin_configuration_form `{Runtime} (api_url a : string)
    (m : plugin_configuration_call) (n : string) (e cid : value) (f : dict)
    (w : World) :
  plugin_arguments m = Some (n, e, cid, f) ->
  keyword_arguments m f ->
  exists d,
    form_sent (run api_url (ApiPlugins a m)) w = Some d
    /\ dict_get "name" d = Some (PyStr n)
    /\ (forall k, dict_get ("value." ++ k) d = dict_get k f)
    /\ dict_get "enabled" d = (if isinstance_bool e then Some e else None)
    /\ dict_get "consumer_id" d =
       match m with
       | PcUpdate _ _ _ _ => if is_not_None cid then Some cid else None
       | _ => Some cid
       end
    /\ dict_get "id" d =
       match m with
       | PcCreateOrUpdate _ i _ _ _ => if is_not_None i then Some i else None
       | _ => None
       end
    /\ (forall k, In k (keys d) ->
          In k ["name"; "consumer_id"; "enabled"; "id"]
          \/ exists k', k = "value." ++ k' /\ In k' (keys f)).
Proof.
  intros Hm [Hnodup _].
  destruct m as [n0 e0 c0 f0|n0 i0 e0 c0 f0|n0 e0 c0 f0| | |];
    try discriminate; injection Hm as -> -> -> ->;
    (eexists; split; [plugin_form_sent|];
     split; [|split; [|split; [|split; [|split]]]]).
  - rewrite lookup_with_enabled, lookup_plugin_data. simpl.
    now rewrite last_value_unprefixed.
  - intros k. rewrite lookup_with_enabled, lookup_plugin_data, last_value_prefixed.
    rewrite (@last_value_NoDup k f Hnodup). simpl. now destruct (dict_get k f).
  - rewrite lookup_with_enabled, lookup_plugin_data. simpl.
    now rewrite last_value_unprefixed.
  - rewrite lookup_with_enabled, lookup_plugin_data. simpl.
    now rewrite last_value_unprefixed.
  - rewrite lookup_with_enabled, lookup_plugin_data. simpl.
    now rewrite last_value_unprefixed.
  - intros k Hin. apply keys_with_enabled in Hin.
    destruct Hin as [->|Hin]; [left; simpl; tauto|].
    apply plugin_data_keys in Hin. destruct Hin as [Hin|Hin]; [left | now right].
    simpl in Hin |- *. tauto.
  - rewrite lookup_with_present, lookup_with_enabled, lookup_plugin_data. simpl.
    now rewrite last_value_unprefixed.
  - intros k. rewrite lookup_with_present, lookup_with_enabled,
      lookup_plugin_data, last_value_prefixed.
    rewrite (@last_value_NoDup k f Hnodup). simpl. now destruct (dict_get k f).
  - rewrite lookup_with_present, lookup_with_enabled, lookup_plugin_data. simpl.
    now rewrite last_value_unprefixed.
  - rewrite lookup_with_present, lookup_with_enabled, lookup_plugin_data. simpl.
    now rewrite last_value_unprefixed.
  - rewrite lookup_with_present, lookup_with_enabled, lookup_plugin_data. simpl.
    rewrite last_value_unprefixed by reflexivity. now destruct (is_not_None i0).
  - intros k Hin. apply keys_with_present in Hin.
    destruct Hin as [->|Hin]; [left; simpl; tauto|].
    apply keys_with_enabled in Hin.
    destruct Hin as [->|Hin]; [left; simpl; tauto|].
    apply plugin_data_keys in Hin. destruct Hin as [Hin|Hin]; [left | now right].
    simpl in Hin |- *. tauto.
  - rewrite lookup_with_enabled, lookup_with_present, lookup_plugin_data. simpl.
    now rewrite last_value_unprefixed.
  - intros k. rewrite lookup_with_enabled, lookup_with_present,
      lookup_plugin_data, last_value_prefixed.
    rewrite (@last_value_NoDup k f Hnodup). simpl. now destruct (dict_get k f).
  - rewrite lookup_with_enabled, lookup_with_present, lookup_plugin_data. simpl.
    now rewrite last_value_unprefixed.
  - rewrite lookup_with_enabled, lookup_with_present, lookup_plugin_data. simpl.
    rewrite last_value_unprefixed by reflexivity. now destruct (is_not_None cid).
  - rewrite lookup_with_enabled, lookup_with_present, lookup_plugin_data. simpl.
    now rewrite last_value_unprefixed.
  - intros k Hin. apply keys_with_enabled in Hin.
    destruct Hin as [->|Hin]; [left; simpl; tauto|].
    apply keys_with_present in Hin.
    destruct Hin as [->|Hin]; [left; simpl; tauto|].
    apply plugin_data_keys in Hin. destruct Hin as [Hin|Hin]; [left | now right].
    simpl in Hin |- *. tauto.
Qed.

Lemma plugin_configuration_form_witness :
  keyword_arguments
    (PcCreateOrUpdate "rate-limiting" (PyStr "7c1e") (PyBool true) PyNone
       [("name", PyStr "other"); ("id", PyInt 9); ("minute", PyInt 5)])
    [("name", PyStr "other"); ("id", PyInt 9); ("minute", PyInt 5)]
  /\ exists d,
       form_sent (run (H := default_runtime) "http://kong:8001"
                    (ApiPlugins "svc"
                       (PcCreateOrUpdate "rate-limiting" (PyStr "7c1e")
                          (PyBool true) PyNone
                          [("name", PyStr "other"); ("id", PyInt 9);
                           ("minute", PyInt 5)])))
         (world [created []]) = Some d
       /\ dict_get "name" d = Some (PyStr "rate-limiting")
       /\ dict_get "id" d = Some (PyStr "7c1e")
       /\ dict_get "value.name" d = Some (PyStr "other")
       /\ dict_get "value.id" d = Some (PyInt 9)
       /\ dict_get "value.minute" d = Some (PyInt 5).
Proof.
  assert (Hk : keyword_arguments
            (PcCreateOrUpdate "rate-limiting" (PyStr "7c1e") (PyBool true) PyNone
               [("name", PyStr "other"); ("id", PyInt 9); ("minute", PyInt 5)])
            [("name", PyStr "other"); ("id", PyInt 9); ("minute", PyInt 5)]).
  { split.
    - repeat constructor; simpl; intuition discriminate.
    - simpl. intros k Hk Hp. intuition (subst; discriminate). }
  split; [exact Hk|].
  destruct (@plugin_configuration_form default_runtime "http://kong:8001" "svc"
              (PcCreateOrUpdate "rate-limiting" (PyStr "7c1e") (PyBool true) PyNone
                 [("name", PyStr "other"); ("id", PyInt 9); ("minute", PyInt 5)])
              "rate-limiting" (PyBool true) PyNone
              [("name", PyStr "other"); ("id", PyInt 9); ("minute", PyInt 5)]
              (world [created []]) eq_refl Hk)
    as [d [Hs [Hn [Hv [_ [_ [Hi _]]]]]]].
  exists d. split; [exact Hs|]. split; [exact Hn|]. split; [exact Hi|].
  split; [exact (Hv "name")|]. split; [exact (Hv "id") | exact (Hv "minute")].
Defined.

(** X9 -- a plugin configuration is sent with ["enabled"] only when the
    argument is a bool: any other value, a string or a number included, is
    left out.  [create] and [create_or_update] always send ["consumer_id"],
    [None] included; [update] sends it only when it is not [None]. *)
Theorem plugin_configuration_optional_keys `{Runtime} (api_url a : string)
    (m : plugin_configuration_call) (n : string) (e cid : value) (f : dict)
    (w : World) :
  plugin_arguments m = Some (n, e, cid, f) ->
  exists d,
    form_sent (run api_url (ApiPlugins a m)) w = Some d
    /\ dict_get "enabled" d = (if isinstance_bool e then Some e else None)
    /\ dict_get "consumer_id" d =
       match m with
       | PcUpdate _ _ _ _ => if is_not_None cid then Some cid else None
       | _ => Some cid
       end.
Proof.
  intros Hm.
  destruct m as [n0 e0 c0 f0|n0 i0 e0 c0 f0|n0 e0 c0 f0| | |];
    try discriminate; injection Hm as -> -> -> ->;
    (eexists; split; [plugin_form_sent|]; split).
  - rewrite lookup_with_enabled, lookup_plugin_data. simpl.
    now rewrite last_value_unprefixed.
  - rewrite lookup_with_enabled, lookup_plugin_data. simpl.
    now rewrite last_value_unprefixed.
  - rewrite lookup_with_present, lookup_with_enabled, lookup_plugin_data. simpl.
    now rewrite last_value_unprefixed.
  - rewrite lookup_with_present, lookup_with_enabled, lookup_plugin_data. simpl.
    now rewrite last_value_unprefixed.
  - rewrite lookup_with_enabled, lookup_with_present, lookup_plugin_data. simpl.
    now rewrite last_value_unprefixed.
  - rewrite lookup_with_enabled, lookup_with_present, lookup_plugin_data. simpl.
    rewrite last_value_unprefixed by reflexivity. now destruct (is_not_None cid).
Qed.

Lemma plugin_configuration_optional_keys_witness :
  exists d,
    form_sent (run (H := default_runtime) "http://kong:8001"
                 (ApiPlugins "svc" (PcUpdate "rate-limiting" (PyStr "true") PyNone [])))
      (world [ok []]) = Some d
    /\ dict_get "enabled" d = None
    /\ dict_get "consumer_id" d = None.
Proof.
  exact (plugin_configuration_optional_keys (H := default_runtime)
           "http://kong:8001" "svc"
           (PcUpdate "rate-limiting" (PyStr "true") PyNone []) (world [ok []])
           eq_refl).
Defined.

Ltac form_sent_of_put :=
  eapply form_sent_round_trip;
  [ intros ?; reflexivity | apply expect_created_or_ok_stateless | reflexivity ].

(** X10 -- [create_or_update] of every client puts the identifier into the
    body under ["id"] when it is not [None], and sends no ["id"] at all when
    it is [None]. *)
Theorem create_or_update_embeds_id `{Runtime} (api_url : string) (c : call)
    (i : value) (w : World) :
  given_id c = Some i ->
  exists d,
    form_sent (run api_url c) w = Some d
    /\ dict_get "id" d = (if is_not_None i then Some i else None).
Proof.
  intros Hc.
  destruct c as [m|a m|m|a m|a m|a m|m]; destruct m; try discriminate;
    injection Hc as ->; (eexists; split; [form_sent_of_put|]);
    rewrite lookup_with_present; simpl;
    try (now destruct (is_not_None i)).
  rewrite lookup_with_enabled, lookup_plugin_data. simpl.
  rewrite last_value_unprefixed by reflexivity. now destruct (is_not_None i).
Qed.

Lemma create_or_update_embeds_id_witness :
  exists d,
    form_sent (run (H := default_runtime) "http://kong:8001"
                 (KeyAuth "alice" (KaCreateOrUpdate PyNone (PyStr "s3cr3t"))))
      (world [created []]) = Some d
    /\ dict_get "id" d = None.
Proof.
  exact (create_or_update_embeds_id (H := default_runtime) "http://kong:8001"
           (KeyAuth "alice" (KaCreateOrUpdate PyNone (PyStr "s3cr3t")))
           (world [created []]) eq_refl).
Defined.

(** X11 -- [add] and [add_or_update] of the APIs send ["public_dns"] and
    ["path"] as [None] when the argument is empty or otherwise false, and
    as given when it is true: an empty string never goes out for them.  The
    target URL is sent as given. *)
Theorem api_add_sends_no_empty_string `{Runtime} (api_url : string)
    (m : api_call) (t n dns p sp ph : value) (w : World) :
  m = ApiAdd t n dns p sp ph \/ (exists i, m = ApiAddOrUpdate t i n dns p sp ph) ->
  exists d,
    form_sent (run api_url (Apis m)) w = Some d
    /\ dict_get "public_dns" d = Some (if truthy dns then dns else PyNone)
    /\ dict_get "path" d = Some (if truthy p then p else PyNone)
    /\ dict_get "public_dns" d <> Some (PyStr "")
    /\ dict_get "path" d <> Some (PyStr "")
    /\ dict_get "target_url" d = Some t.
Proof.
  assert (Hfalse : forall x, (if truthy x then x else PyNone) <> PyStr "").
  { intros x. destruct (truthy x) eqn:Hx; [|discriminate].
    intros ->. discriminate Hx. }
  intros [->|[i ->]].
  - eexists. split.
    { eapply form_sent_round_trip;
        [intros ?; reflexivity | apply expect_created_stateless | reflexivity]. }
    simpl. unfold py_or. repeat split; try reflexivity;
      intros E; injection E as E; now apply Hfalse in E.
  - eexists. split; [form_sent_of_put|].
    rewrite !lookup_with_present. simpl. unfold py_or.
    repeat split; try reflexivity;
      intros E; injection E as E; now apply Hfalse in E.
Qed.

Lemma api_add_sends_no_empty_string_witness :
  exists d,
    form_sent (run (H := default_runtime) "http://kong:8001"
                 (Apis (ApiAdd (PyStr "http://x") (PyStr "svc") (PyStr "")
                          (PyStr "") (PyBool false) (PyBool false))))
      (world [created []]) = Some d
    /\ dict_get "public_dns" d = Some PyNone
    /\ dict_get "path" d = Some PyNone.
Proof.
  destruct (api_add_sends_no_empty_string (H := default_runtime)
              "http://kong:8001" (world [created []])
              (or_introl (eq_refl
                 (ApiAdd (PyStr "http://x") (PyStr "svc") (PyStr "")
                    (PyStr "") (PyBool false) (PyBool false)))))
    as [d [Hs [Hd [Hp _]]]].
  exists d. split; [exact Hs|]. split; [exact Hd | exact Hp].
Defined.

(** X12 -- [update] of an API whose keyword arguments pass the whitelist
    sends the target URL it was given under ["target_url"] and every keyword
    argument under its own name. *)
Theorem api_update_form `{Runtime} (api_url name_or_id : string)
    (t : value) (f : dict) (w : World) :
  (forall k, In k (keys f) ->
     In k ["name"; "public_dns"; "path"; "strip_path"; "preserve_host"]) ->
  exists d,
    form_sent (run api_url (Apis (ApiUpdate name_or_id t f))) w = Some d
    /\ dict_get "target_url" d = Some t
    /\ (forall k, k <> "target_url" -> dict_get k d = last_value k f).
Proof.
  intros Hf. eexists. split.
  { eapply form_sent_guarded;
      [ intros ?; reflexivity
      | apply (assert_dict_keys_in_passes _ _ Hf)
      | apply expect_ok_stateless
      | reflexivity ]. }
  split.
  - rewrite dict_get_update.
    assert (Hn : last_value "target_url" f = None).
    { apply last_value_None. intros Hin. apply Hf in Hin.
      simpl in Hin. intuition discriminate. }
    now rewrite Hn.
  - intros k Hk. rewrite dict_get_update. destruct (last_value k f); [reflexivity|].
    simpl. destruct (String.eqb_spec k "target_url"); [contradiction | reflexivity].
Qed.

Lemma api_update_form_witness :
  exists d,
    form_sent (run (H := default_runtime) "http://kong:8001"
                 (Apis (ApiUpdate "svc" (PyStr "http://x") [("path", PyStr "/v2")])))
      (world [ok []]) = Some d
    /\ dict_get "target_url" d = Some (PyStr "http://x")
    /\ dict_get "path" d = Some (PyStr "/v2").
Proof.
  destruct (api_update_form (H := default_runtime) "http://kong:8001" "svc"
              (PyStr "http://x") [("path", PyStr "/v2")] (world [ok []]))
    as [d [Hs [Ht Hk]]].
  - intros k [<-|[]]. simpl. tauto.
  - exists d. split; [exact Hs|]. split; [exact Ht|].
    apply (Hk "path"). discriminate.
Defined.

Lemma outbox_guarded A (m : M A) (g : outcome unit) (req : Request)
    (after : Response -> M A) (w : World) :
  (forall w, m w = (lift g ;;; round_trip req after) w) ->
  g = Return tt ->
  (forall r, stateless (after r)) ->
  outbox (snd (m w)) = req :: outbox w.
Proof.
  intros Hm -> Hafter. rewrite Hm. unfold bind, lift.
  now rewrite (round_trip_world _ _ _ Hafter).
Qed.

Lemma list_query_lookup (s o : value) (f : dict) (sends_offset : value -> bool) :
  let q := if sends_offset o
           then dict_set "offset" o (dict_set "size" s f)
           else dict_set "size" s f in
  dict_get "size" q = Some s
  /\ forall k, k <> "size" -> k <> "offset" -> dict_get k q = dict_get k f.
Proof.
  cbv zeta. destruct (sends_offset o); split.
  - rewrite dict_get_set_other by discriminate. apply dict_get_set.
  - intros k H1 H2. now rewrite !dict_get_set_other.
  - apply dict_get_set.
  - intros k H1 H2. now rewrite dict_get_set_other.
Qed.

(** X13 -- [list] of every client, once the filters pass the whitelist, is
    one GET of the URL of its collection with a query that holds the size
    and every filter unchanged. *)
Theorem list_query_keeps_filters `{Runtime} (api_url : string) (c : call)
    (s o : value) (f q : dict) (w : World) :
  list_query_of c = Some (s, o, f, q) ->
  guard_of c = Return tt ->
  (exists req,
     outbox (snd (run api_url c w)) = req :: outbox w
     /\ method req = GET
     /\ url req = get_url api_url (base_path c) q)
  /\ dict_get "size" q = Some s
  /\ (forall k, k <> "size" -> k <> "offset" -> dict_get k q = dict_get k f).
Proof.
  intros Hq Hg.
  destruct c as [m|a m|m|a m|a m|a m|m]; destruct m; try discriminate;
    injection Hq as <- <- <- <-;
    (split;
     [ eexists; split;
       [ eapply outbox_guarded;
         [intros ?; reflexivity | exact Hg | apply expect_ok_stateless]
       | split; reflexivity ]
     | first [ apply (list_query_lookup size offset filter_fields truthy)
             | apply (list_query_lookup size offset filter_fields is_not_None) ] ]).
Qed.

Lemma list_query_keeps_filters_witness :
  exists req,
    outbox (snd (run (H := default_runtime) "http://kong:8001"
                   (Consumers (CoList (PyInt 10) PyNone [("username", PyStr "alice")]))
                   (world [ok []])))
    = [req]
    /\ method req = GET
    /\ url req = "http://kong:8001/consumers/?username=alice&size=10".
Proof.
  destruct (list_query_keeps_filters (H := default_runtime) "http://kong:8001"
              (Consumers (CoList (PyInt 10) PyNone [("username", PyStr "alice")]))
              (world [ok []]) eq_refl eq_refl) as [[req [Ho [Hm Hu]]] _].
  exists req. split; [exact Ho|]. split; [exact Hm | exact Hu].
Defined.

(* ------------------------------------------------------------------ *)
(** ** A client that makes many requests *)

Section Throttle.
Context `{Runtime}.

Lemma send_slept (latency : Q) (self : ThrottlingHTTPAdapter.t) (tl : Timeline) :
  slept (snd (ThrottlingHTTPAdapter.send latency self tl)) = slept tl
  \/ exists d, slept (snd (ThrottlingHTTPAdapter.send latency self tl))
               = d :: slept tl
               /\ short_sleep d.
Proof.
  unfold ThrottlingHTTPAdapter.send.
  destruct (ThrottlingHTTPAdapter._last_request self) as [last|]; [|now left].
  destruct (Qltb 0 KONG_MINIMUM_REQUEST_INTERVAL); [|now left].
  destruct (Qltb 0 (now tl - last)) eqn:H0; [|now left].
  destruct (Qltb (now tl - last) KONG_MINIMUM_REQUEST_INTERVAL) eqn:H1; [|now left].
  right. exists (now tl - last)%Q. split; [reflexivity|].
  split; now apply Qltb_lt.
Qed.

Lemma session_send_slept (latency : Q) (_session : option Session) (tl : Timeline) :
  slept (snd (session_send latency _session tl)) = slept tl
  \/ exists d, slept (snd (session_send latency _session tl)) = d :: slept tl
               /\ short_sleep d.
Proof.
  unfold session_send. destruct (adapter (session _session)) as [a|]; [|now left].
  pose proof (send_slept latency a tl) as Hs.
  now destruct (ThrottlingHTTPAdapter.send latency a tl).
Qed.

Lemma session_send_first (latency : Q) (tl : Timeline) :
  slept (snd (session_send latency None tl)) = slept tl.
Proof.
  unfold session_send, session, new_session.
  destruct (Qltb 0 KONG_MINIMUM_REQUEST_INTERVAL); reflexivity.
Qed.

Lemma session_sends_slept (plan : list (Q * Q)) :
  forall (_session : option Session) (tl : Timeline),
  exists sleeps,
    slept (snd (session_sends plan _session tl)) = (sleeps ++ slept tl)%list
    /\ Forall short_sleep sleeps
    /\ length sleeps <= length plan.
Proof.
  induction plan as [|[gap latency] plan IH]; intros s tl.
  - exists []. repeat split; [constructor | simpl; lia].
  - simpl. destruct (session_send latency s (idle gap tl)) as [s' tl'] eqn:E.
    pose proof (session_send_slept latency s (idle gap tl)) as Hs.
    rewrite E in Hs. simpl in Hs.
    destruct (IH s' tl') as [sleeps [Hsl [Hshort Hlen]]].
    destruct Hs as [Hs|[d [Hs Hd]]].
    + exists sleeps. rewrite Hsl, Hs. repeat split; [exact Hshort | lia].
    + exists (sleeps ++ [d])%list. rewrite Hsl, Hs, <- app_assoc.
      repeat split.
      * apply Forall_app. split; [exact Hshort | now constructor].
      * rewrite length_app. simpl. lia.
Qed.
End Throttle.

(** X14 -- however many requests a client makes and whenever it makes them,
    the adapter sleeps at most once before a request and never before the
    first, and every sleep is longer than 0 and shorter than the minimum
    request interval. *)
Theorem sleeps_are_short `{Runtime} (plan : list (Q * Q)) (tl : Timeline) :
  exists sleeps,
    slept (snd (session_sends plan None tl)) = (sleeps ++ slept tl)%list
    /\ Forall (fun d => (0 < d)%Q /\ (d < KONG_MINIMUM_REQUEST_INTERVAL)%Q) sleeps
    /\ length sleeps <= Nat.pred (length plan).
Proof.
  destruct plan as [|[gap latency] plan].
  - exists []. repeat split; [constructor | simpl; lia].
  - simpl. destruct (session_send latency None (idle gap tl)) as [s' tl'] eqn:E.
    pose proof (session_send_first latency (idle gap tl)) as Hfirst.
    rewrite E in Hfirst. simpl in Hfirst.
    destruct (session_sends_slept plan s' tl') as [sleeps [Hsl [Hshort Hlen]]].
    exists sleeps. rewrite Hsl, Hfirst. repeat split; assumption.
Qed.

(** X15 -- when connections are not reused, or when the minimum request
    interval is not above 0, the adapter never sleeps, whatever session the
    client starts with and however close its requests are. *)
Theorem no_sleep_when_off `{Runtime} (plan : list (Q * Q)) :
  KONG_REUSE_CONNECTIONS = false \/ ~ (0 < KONG_MINIMUM_REQUEST_INTERVAL)%Q ->
  forall (_session : option Session) (tl : Timeline),
    slept (snd (session_sends plan _session tl)) = slept tl.
Proof.
  intros Hoff. induction plan as [|[gap latency] plan IH]; intros s tl;
    [reflexivity|].
  simpl. destruct (session_send latency s (idle gap tl)) as [s' tl'] eqn:E.
  rewrite IH.
  assert (Hs : slept (snd (session_send latency s (idle gap tl))) = slept tl).
  { clear E. unfold session_send, session, new_session,
      ThrottlingHTTPAdapter.send, ThrottlingHTTPAdapter.__init__.
    destruct Hoff as [Hr|Hi].
    - rewrite Hr. simpl.
      destruct s as [s|]; destruct (Qltb 0 KONG_MINIMUM_REQUEST_INTERVAL);
        reflexivity.
    - assert (Hb : Qltb 0 KONG_MINIMUM_REQUEST_INTERVAL = false).
      { destruct (Qltb 0 KONG_MINIMUM_REQUEST_INTERVAL) eqn:Hb; [|reflexivity].
        apply Qltb_lt in Hb. contradiction. }
      rewrite Hb.
      destruct s as [[[[[last|]]|]]|]; destruct KONG_REUSE_CONNECTIONS;
        reflexivity. }
  now rewrite E in Hs.
Qed.

Lemma no_sleep_when_off_witness :
  slept (snd (session_sends (H := runtime 10 false)
                [(0, 1); (0, 1); (1 # 2, 1)]%Q None
                {| now := 0; slept := []; started := [] |})) = [].
Proof.
  apply (no_sleep_when_off (H := runtime 10 false)). now left.
Defined.

(* ------------------------------------------------------------------ *)
(** ** What a call never does *)

(** X16 -- when the transport gives no response, every method that got past
    its whitelist raises the error of the transport, unchanged, after its
    one request: nothing is retried and nothing else is raised in its
    place. *)
Theorem transport_error_propagates `{Runtime} (api_url : string) (c : call)
    (w : World) :
  inbox w = [] -> guard_of c = Return tt ->
  fst (run api_url c w) = Raise ConnectionError
  /\ length (outbox (snd (run api_url c w))) = S (length (outbox w))
  /\ backoffs (snd (run api_url c w)) = backoffs w.
Proof.
  intros E Hg. destruct (operation_of c) eqn:Ec.
  - destruct (run_create api_url c Ec) as [req Hrun].
    rewrite Hrun, (round_trip_unanswered _ _ _ E). repeat split.
  - destruct (run_create_or_update api_url c Ec) as [req Hrun].
    rewrite Hrun, (round_trip_unanswered _ _ _ E). repeat split.
  - destruct (run_guarded api_url c (or_introl Ec)) as [req Hrun].
    rewrite Hrun, Hg. unfold bind, lift.
    rewrite (round_trip_unanswered _ _ _ E). repeat split.
  - destruct (run_guarded api_url c (or_intror (or_introl Ec))) as [req Hrun].
    rewrite Hrun, Hg. unfold bind, lift.
    rewrite (round_trip_unanswered _ _ _ E). repeat split.
  - destruct (run_guarded api_url c (or_intror (or_intror Ec))) as [req Hrun].
    rewrite Hrun, Hg. unfold bind, lift.
    rewrite (round_trip_unanswered _ _ _ E). repeat split.
  - destruct (run_count api_url c Ec) as [req Hrun].
    rewrite Hrun, (round_trip_unanswered _ _ _ E). repeat split.
  - destruct (run_delete api_url c Ec) as [req [message Hrun]].
    rewrite Hrun. unfold returning_None, on_exception, bind.
    rewrite (retry_passes_on _ _ _ (attempt_unanswered req message _ E) eq_refl).
    repeat split.
Qed.

Lemma transport_error_propagates_witness :
  fst (run (H := default_runtime) "http://kong:8001"
         (OAuth2 "alice" (OaDelete "app")) (world []))
  = Raise ConnectionError.
Proof.
  apply (transport_error_propagates (H := default_runtime) "http://kong:8001"
           (OAuth2 "alice" (OaDelete "app")) (world []) eq_refl eq_refl).
Defined.

Lemma run_delete_status `{Runtime} (api_url : string) (c : call) :
  operation_of c = OpDelete ->
  exists req message, forall w,
    run api_url c w
    = returning_None
        (on_exception 3 (attempt req (fun r => message (status_code r)))) w.
Proof.
  destruct c as [m|a m|m|a m|a m|a m|m]; destruct m; try discriminate; intros _.
  - eexists. exists (fun s => "Could not delete API (status: " ++ decimal s
                                ++ "): " ++ name_or_id).
    intros w. reflexivity.
  - eexists. exists (fun s => "Could not delete Plugin Configuration (status: "
                                ++ decimal s ++ "): " ++ plugin_name_or_id).
    intros w. reflexivity.
  - eexists. exists (fun s => "Could not delete Consumer (status: " ++ decimal s
                                ++ "): " ++ username_or_id).
    intros w. reflexivity.
  - eexists. exists (fun s => "Could not delete Basic Auth (status: " ++ decimal s
                                ++ "): " ++ basic_auth_id ++ " for Consumer: " ++ a).
    intros w. reflexivity.
  - eexists. exists (fun s => "Could not delete Key Auth (status: " ++ decimal s
                                ++ "): " ++ key_auth_id ++ " for Consumer: " ++ a).
    intros w. reflexivity.
  - eexists. exists (fun s => "Could not delete OAuth2 (status: " ++ decimal s
                                ++ "): " ++ oauth2_id ++ " for Consumer: " ++ a).
    intros w. reflexivity.
Qed.

Lemma retry_reads_statuses (req : Request) (message : Z -> string) (further : nat) :
  forall w w',
    map status_code (inbox w) = map status_code (inbox w') ->
    fst (retry further (attempt req (fun r => message (status_code r))) w)
    = fst (retry further (attempt req (fun r => message (status_code r))) w').
Proof.
  induction further as [|further IH]; intros w w' E;
    destruct (inbox w) as [|r rest] eqn:Ew;
    destruct (inbox w') as [|r' rest'] eqn:Ew'; try discriminate.
  - rewrite (retry_gives_up _ _ (attempt_unanswered req _ _ Ew)).
    now rewrite (retry_gives_up _ _ (attempt_unanswered req _ _ Ew')).
  - injection E as Es Er.
    destruct (accepts OpDelete (status_code r)) eqn:Hs.
    + rewrite (retry_returns _ _ _ (attempt_gone req _ _ Ew Hs)).
      rewrite Es in Hs.
      now rewrite (retry_returns _ _ _ (attempt_gone req _ _ Ew' Hs)).
    + rewrite (retry_gives_up _ _ (attempt_failed req _ _ Ew Hs)).
      rewrite Es in Hs.
      rewrite (retry_gives_up _ _ (attempt_failed req _ _ Ew' Hs)).
      simpl. now rewrite Es.
  - rewrite (retry_passes_on _ _ _ (attempt_unanswered req _ _ Ew) eq_refl).
    now rewrite (retry_passes_on _ _ _ (attempt_unanswered req _ _ Ew') eq_refl).
  - injection E as Es Er.
    destruct (accepts OpDelete (status_code r)) eqn:Hs.
    + rewrite (retry_returns _ _ _ (attempt_gone req _ _ Ew Hs)).
      rewrite Es in Hs.
      now rewrite (retry_returns _ _ _ (attempt_gone req _ _ Ew' Hs)).
    + rewrite (retry_again _ _ _ (attempt_failed req _ _ Ew Hs)).
      rewrite Es in Hs.
      rewrite (retry_again _ _ _ (attempt_failed req _ _ Ew' Hs)).
      apply IH. exact Er.
Qed.

(** X17 -- [delete] never reads the body of a response: against two
    backends whose responses have the same status codes, whatever their
    bodies, a [delete] call has the same outcome, the message of its
    [ValueError] included. *)
Theorem delete_reads_statuses_only `{Runtime} (api_url : string) (c : call)
    (w w' : World) :
  operation_of c = OpDelete ->
  map status_code (inbox w) = map status_code (inbox w') ->
  fst (run api_url c w) = fst (run api_url c w').
Proof.
  intros Hop E. destruct (run_delete_status api_url c Hop) as [req [message Hrun]].
  rewrite !Hrun. unfold returning_None, on_exception, bind.
  pose proof (retry_reads_statuses req message (Nat.pred 3) w w' E) as Hr.
  destruct (retry _ _ w) as [[[]|e] w1];
    destruct (retry _ _ w') as [[[]|e'] w1']; simpl in Hr |- *;
    try discriminate; try reflexivity.
  now injection Hr as ->.
Qed.

Lemma delete_reads_statuses_only_witness :
  fst (run (H := default_runtime) "http://kong:8001" (Apis (ApiDelete "svc"))
         (world [bad_gateway 502; bad_gateway 502; bad_gateway 502]))
  = fst (run (H := default_runtime) "http://kong:8001" (Apis (ApiDelete "svc"))
           (world [{| status_code := 502; body := JsonBody PyNone |};
                   {| status_code := 502; body := JsonBody (PyList []) |};
                   {| status_code := 502; body := RawBody "" |}])).
Proof.
  apply (delete_reads_statuses_only (H := default_runtime) "http://kong:8001"
           (Apis (ApiDelete "svc"))
           (world [bad_gateway 502; bad_gateway 502; bad_gateway 502])
           (world [{| status_code := 502; body := JsonBody PyNone |};
                   {| status_code := 502; body := JsonBody (PyList []) |};
                   {| status_code := 502; body := RawBody "" |}])
           eq_refl eq_refl).
Defined.
